(** * openapi-mcp: the API gateway adapter of [code/main.py]

    A shallow embedding of the adapter (request building, the HTTP
    invoker [make_api_request], the tool operations and the two compound
    operations) and the properties stated about it.

    Python values are an inductive type, dictionaries are finite maps
    with string keys, the backend is an oracle that answers each request
    from the history of requests issued so far, and every operation runs
    in a small monad that threads that history and may raise a Python
    exception. *)

From Stdlib Require Import ZArith String.
From Stdlib Require Import Floats.SpecFloat.
From stdpp Require Import gmap strings list fin_maps pretty.

Set Warnings "-register-all,-clear-no-such-hyp".
Local Open Scope Z_scope.

(** ** Python values

    What [response.json()] can produce and what the operations build:
    [None], booleans, integers, floats, strings, lists and dictionaries. *)

Inductive pyval : Type :=
  | PNone
  | PBool (b : bool)
  | PInt (z : Z)
  | PFloat (f : spec_float)
  | PStr (s : string)
  | PList (l : list pyval)
  | PDict (d : gmap string pyval).

(** The exceptions the adapter's own code can raise on a value of the
    wrong type. *)
Inductive pyexc : Type :=
  | AttributeError (ty attr : string)   (* '<ty>' object has no attribute '<attr>' *)
  | NotIterable (ty : string)           (* TypeError: argument of type '<ty>' is not iterable *)
  | NoItemAssignment (ty : string).     (* TypeError: '<ty>' object does not support item assignment *)

Inductive outcome (A : Type) : Type :=
  | Returns (a : A)
  | Raises (e : pyexc).
Arguments Returns {A} a.
Arguments Raises {A} e.

Definition type_name (v : pyval) : string :=
  match v with
  | PNone => "NoneType"
  | PBool _ => "bool"
  | PInt _ => "int"
  | PFloat _ => "float"
  | PStr _ => "str"
  | PList _ => "list"
  | PDict _ => "dict"
  end.

(** [bool(v)]: the truth value Python's [if v] and [not v] use. *)
Definition truthy (v : pyval) : bool :=
  match v with
  | PNone => false
  | PBool b => b
  | PInt z => negb (z =? 0)
  | PFloat (S754_zero _) => false
  | PFloat _ => true
  | PStr s => negb (String.eqb s "")
  | PList l => match l with [] => false | _ => true end
  | PDict d => negb (Nat.eqb (size d) 0)
  end.

(** [v == 0] and [v != 0] against the integer literal [0]: [False] and
    both float zeros are equal to [0], nothing else but the integer is. *)
Definition py_eq_zero (v : pyval) : bool :=
  match v with
  | PBool b => negb b
  | PInt z => z =? 0
  | PFloat (S754_zero _) => true
  | _ => false
  end.

Definition py_ne_zero (v : pyval) : bool := negb (py_eq_zero v).

(** [v.get(k, dflt)]: only dictionaries have the method. *)
Definition py_get (v : pyval) (k : string) (dflt : pyval) : outcome pyval :=
  match v with
  | PDict d => Returns (default dflt (d !! k))
  | _ => Raises (AttributeError (type_name v) "get")
  end.

(** [needle in v] for a string [needle]: key membership in a
    dictionary, substring test in a string, element test in a list. *)
Definition py_contains (needle : string) (v : pyval) : outcome bool :=
  match v with
  | PDict d => Returns (bool_decide (is_Some (d !! needle)))
  | PStr s => Returns (match String.index 0 needle s with Some _ => true | None => false end)
  | PList l =>
      Returns (existsb (fun x => match x with PStr s => String.eqb s needle | _ => false end) l)
  | _ => Raises (NotIterable (type_name v))
  end.

(** [v[k] = x] for a string key. *)
Definition py_setitem (v : pyval) (k : string) (x : pyval) : outcome pyval :=
  match v with
  | PDict d => Returns (PDict (<[k := x]> d))
  | _ => Raises (NoItemAssignment (type_name v))
  end.

(** ** The HTTP side *)

Record client : Type := {
  base_url : string;
  timeout : Z;
  verify : bool;
  client_headers : gmap string string
}.

Definition API_BASE_URL : string := "https://18.143.168.167:49900".
Definition USER_AGENT : string := "openapi-mcp/1.0".

Definition get_client : client :=
  {| base_url := API_BASE_URL;
     timeout := 30;
     verify := false;
     client_headers := {[ "User-Agent" := USER_AGENT; "Content-Type" := "application/json" ]} |}.

(** One call of [client.request]: the method, the path, the headers
    passed for this request and the [params] and [json] keyword
    arguments when given. *)
Record request : Type := {
  req_method : string;
  req_url : string;
  req_headers : gmap string string;
  req_params : option (gmap string pyval);
  req_json : option (gmap string pyval)
}.

(** The headers that go out: those of the request over the client's. *)
Definition sent_headers (r : request) : gmap string string :=
  req_headers r ∪ client_headers get_client.

(** The payload of a request: its JSON body, else its query parameters. *)
Definition payload (r : request) : gmap string pyval :=
  match req_json r with
  | Some d => d
  | None => default ∅ (req_params r)
  end.

(** A response: its status, the text of the error [raise_for_status]
    raises for it, and what [json()] does: raise (with that text) or
    return the parsed body. *)
Record response : Type := {
  status_code : Z;
  status_error : string;
  json_body : string + pyval
}.

Definition is_success (r : response) : bool :=
  (200 <=? status_code r) && (status_code r <=? 299).

(** What [client.request] does: raise (a timeout, a connection or TLS
    error; [e] is [str] of the exception) or hand back a response. *)
Inductive transport : Type :=
  | Raised (e : string)
  | Responded (r : response).

(** The backend answers a request given the requests issued before it. *)
Definition backend : Type := list request -> request -> transport.

(** The keyword arguments of [make_api_request]. *)
Record kwargs : Type := {
  kw_headers : option (gmap string string);
  kw_params : option (gmap string pyval);
  kw_json : option (gmap string pyval)
}.

Definition no_kwargs : kwargs :=
  {| kw_headers := None; kw_params := None; kw_json := None |}.
Definition with_params (p : gmap string pyval) : kwargs :=
  {| kw_headers := None; kw_params := Some p; kw_json := None |}.
Definition with_json (d : gmap string pyval) : kwargs :=
  {| kw_headers := None; kw_params := None; kw_json := Some d |}.

(** ** The monad of the operations: the history of requests is threaded
    through, and the result is a value or a raised exception. *)

Definition M (A : Type) : Type := list request -> outcome A * list request.

Definition ret {A} (a : A) : M A := fun h => (Returns a, h).

Definition bind {A B} (m : M A) (k : A -> M B) : M B :=
  fun h =>
    match m h with
    | (Returns a, h') => k a h'
    | (Raises e, h') => (Raises e, h')
    end.

Definition lift {A} (o : outcome A) : M A := fun h => (o, h).

Notation "'do' x <- m ; k" := (bind m (fun x => k))
  (at level 10, x name, m at level 100, k at level 200,
   format "'[v' 'do'  x  <-  m ; '/' k ']'").

(** [if s:] on an optional string: [None] and the empty string are
    false. *)
Definition opt_truthy (s : option string) : bool :=
  match s with
  | Some t => negb (String.eqb t "")
  | None => false
  end.

(** [if x is not None: d[k] = x]. *)
Definition set_opt (k : string) (x : option pyval) (d : gmap string pyval)
    : gmap string pyval :=
  match x with
  | Some v => <[k := v]> d
  | None => d
  end.

Definition str_list (l : list string) : pyval := PList (PStr <$> l).

(** The uniform failure envelope of the [except] clause. *)
Definition failure_envelope (e : string) : pyval :=
  PDict {[ "code" := PInt 500;
           "action" := PStr "alert";
           "message" := PStr e;
           "data" := PNone;
           "success" := PBool false ]}.

(** The request [make_api_request] hands to [client.request]. *)
Definition build_request (method url : string) (token : option string) (kw : kwargs) : request :=
  let headers := default ∅ (kw_headers kw) in
  let headers :=
    match token with
    | Some t => if opt_truthy token then <["Authorization" := t]> headers else headers
    | None => headers
    end in
  {| req_method := method;
     req_url := url;
     req_headers := headers;
     req_params := kw_params kw;
     req_json := kw_json kw |}.

(** The body of the [try]: the exception text, or the parsed body. *)
Definition try_body (t : transport) : string + pyval :=
  match t with
  | Raised e => inl e
  | Responded r =>
      if is_success r then json_body r        (* response.json() *)
      else inl (status_error r)               (* response.raise_for_status() *)
  end.

(** The two fixed texts of [user_delete]. *)
Definition offline_failed_prefix : string := "设置用户为离职状态失败: ".
Definition delete_hint : string :=
  "。注意: 只能删除离职用户，可能需要等待一段时间才能删除。".

Section Adapter.

Variable be : backend.

(** [str(v)] of a float, a list or a dictionary is Python's own
    formatting and is left open. *)
Variable repr_other : pyval -> string.

Definition py_str (v : pyval) : string :=
  match v with
  | PStr s => s
  | PNone => "None"
  | PBool true => "True"
  | PBool false => "False"
  | PInt z => pretty z
  | _ => repr_other v
  end.

Definition make_api_request (method url : string) (token : option string)
    (kw : kwargs) : M pyval :=
  fun h =>
    let req := build_request method url token kw in
    match try_body (be h req) with
    | inr v => (Returns v, h ++ [req])
    | inl e => (Returns (failure_envelope e), h ++ [req])
    end.

(** *** Token *)

Definition issue_token (access_key_id access_key_secret : string) : M pyval :=
  let request_data : gmap string pyval :=
    {[ "access_key_id" := PStr access_key_id;
       "access_key_secret" := PStr access_key_secret ]} in
  do result <- make_api_request "POST" "/api/open/v1/token" None (with_json request_data);
  do failed <- (if negb (truthy result) then ret true
                else lift (py_contains "error" result));
  if failed : bool then
    do err <- lift (py_get result "error" (PStr "Failed to get token"));
    ret (PDict {[ "success" := PBool false; "error" := err ]})
  else
    do data <- lift (py_get result "data" (PDict ∅));
    do access_token <- lift (py_get data "access_token" PNone);
    do expires_in <- lift (py_get data "expires_in" PNone);
    ret (PDict {[ "success" := PBool true;
                  "data" := PDict {[ "access_token" := access_token;
                                     "expires_in" := expires_in ]} ]}).

(** *** Departments *)

Definition department_list (token : string) (department_id : option string) : M pyval :=
  let params : gmap string pyval :=
    match department_id with
    | Some d => if opt_truthy department_id then {[ "id" := PStr d ]} else ∅
    | None => ∅
    end in
  make_api_request "GET" "/api/open/v1/department/list" (Some token) (with_params params).

Definition department_detail (token department_id : string) : M pyval :=
  let params : gmap string pyval := {[ "param" := PStr department_id ]} in
  make_api_request "GET" "/api/open/v1/department/detail" (Some token) (with_params params).

Definition department_create (token name parent_id : string) (order : option Z) : M pyval :=
  let request_data : gmap string pyval :=
    {[ "name" := PStr name; "parent_id" := PStr parent_id ]} in
  let request_data := set_opt "order" (PInt <$> order) request_data in
  make_api_request "POST" "/api/open/v1/department/create" (Some token)
    (with_json request_data).

Definition department_update (token department_id : string) (name : option string)
    (order : option Z) : M pyval :=
  let request_data : gmap string pyval := {[ "id" := PStr department_id ]} in
  let request_data := set_opt "name" (PStr <$> name) request_data in
  let request_data := set_opt "order" (PInt <$> order) request_data in
  make_api_request "POST" "/api/open/v1/department/update" (Some token)
    (with_json request_data).

Definition department_delete (token department_id : string) : M pyval :=
  let request_data : gmap string pyval := {[ "id" := PStr department_id ]} in
  make_api_request "POST" "/api/open/v1/department/delete" (Some token)
    (with_json request_data).

(** *** Roles *)

Definition role_list (token : string) : M pyval :=
  make_api_request "GET" "/api/open/v1/role/list" (Some token) no_kwargs.

Definition role_get (token role_id : string) : M pyval :=
  let params : gmap string pyval := {[ "id" := PStr role_id ]} in
  make_api_request "GET" "/api/open/v1/role/get" (Some token) (with_params params).

Definition role_create (token name : string) (description : option string) : M pyval :=
  let request_data : gmap string pyval := {[ "name" := PStr name ]} in
  let request_data := set_opt "description" (PStr <$> description) request_data in
  make_api_request "POST" "/api/open/v1/role/create" (Some token) (with_json request_data).

Definition role_update (token role_id : string) (name description : option string)
    : M pyval :=
  let request_data : gmap string pyval := {[ "id" := PStr role_id ]} in
  let request_data := set_opt "name" (PStr <$> name) request_data in
  let request_data := set_opt "description" (PStr <$> description) request_data in
  make_api_request "POST" "/api/open/v1/role/update" (Some token) (with_json request_data).

Definition role_delete (token role_id : string) : M pyval :=
  let request_data : gmap string pyval := {[ "id" := PStr role_id ]} in
  make_api_request "POST" "/api/open/v1/role/delete" (Some token) (with_json request_data).

Definition role_member_create (token role_id : string) (user_ids : list string) : M pyval :=
  let request_data : gmap string pyval :=
    {[ "role_id" := PStr role_id; "user_ids" := str_list user_ids ]} in
  make_api_request "POST" "/api/open/v1/role/member/create" (Some token)
    (with_json request_data).

Definition role_member_delete (token role_id : string) (user_ids : list string) : M pyval :=
  let request_data : gmap string pyval :=
    {[ "role_id" := PStr role_id; "user_ids" := str_list user_ids ]} in
  make_api_request "POST" "/api/open/v1/role/member/delete" (Some token)
    (with_json request_data).

(** *** Users *)

Definition user_list (token department_id : string) (recursive : option bool) : M pyval :=
  let params : gmap string pyval := {[ "department_id" := PStr department_id ]} in
  let params :=
    match recursive with
    | Some b => <["recursive" := PInt (if b then 1 else 0)]> params
    | None => params
    end in
  make_api_request "GET" "/api/open/v1/user/list" (Some token) (with_params params).

Definition user_get (token user_id : string) : M pyval :=
  let params : gmap string pyval := {[ "id" := PStr user_id ]} in
  make_api_request "GET" "/api/open/v1/user/get" (Some token) (with_params params).

Definition user_create (token username full_name department_id : string)
    (email mobile password : option string) (gender status : Z) : M pyval :=
  let request_data : gmap string pyval :=
    {[ "username" := PStr username;
       "full_name" := PStr full_name;
       "department_id" := PStr department_id;
       "gender" := PInt gender;
       "status" := PInt status ]} in
  let request_data := set_opt "email" (PStr <$> email) request_data in
  let request_data := set_opt "mobile" (PStr <$> mobile) request_data in
  let request_data := set_opt "password" (PStr <$> password) request_data in
  make_api_request "POST" "/api/open/v1/user/create" (Some token) (with_json request_data).

Definition user_update (token user_id : string) (full_name email mobile
    department_id : option string) (role_ids : option (list string))
    (status : option Z) : M pyval :=
  let request_data : gmap string pyval := {[ "id" := PStr user_id ]} in
  let request_data := set_opt "full_name" (PStr <$> full_name) request_data in
  let request_data := set_opt "email" (PStr <$> email) request_data in
  let request_data := set_opt "mobile" (PStr <$> mobile) request_data in
  let request_data := set_opt "department_id" (PStr <$> department_id) request_data in
  let request_data := set_opt "role_ids" (str_list <$> role_ids) request_data in
  let request_data := set_opt "status" (PInt <$> status) request_data in
  make_api_request "POST" "/api/open/v1/user/update" (Some token) (with_json request_data).

Definition user_set_status (token user_id : string) (status : Z) : M pyval :=
  user_update token user_id None None None None None (Some status).

(** The abort envelope of [user_delete]; it has no "success" key. *)
Definition offline_failed (status_result : pyval) : M pyval :=
  do code <- lift (py_get status_result "code" (PInt 500));
  do message <- lift (py_get status_result "message" (PStr ""));
  ret (PDict {[ "code" := code;
                "action" := PStr "alert";
                "message" := PStr (offline_failed_prefix +:+ py_str message);
                "data" := PNone ]}).

(** [user_delete]; the early [return] of the pre-step is the [Some]
    of [aborted]. *)
Definition user_delete (token user_id : string) (set_offline_first : bool) : M pyval :=
  do aborted <-
    (if set_offline_first then
       do status_result <- user_update token user_id None None None None None (Some 3);
       do code <- lift (py_get status_result "code" PNone);
       if py_ne_zero code then
         do envelope <- offline_failed status_result;
         ret (Some envelope)
       else ret None
     else ret None);
  match aborted with
  | Some envelope => ret envelope
  | None =>
      let request_data : gmap string pyval := {[ "id" := PStr user_id ]} in
      do result <- make_api_request "POST" "/api/open/v1/user/delete" (Some token)
                     (with_json request_data);
      do code <- lift (py_get result "code" PNone);
      if py_ne_zero code then
        do message <- lift (py_get result "message" (PStr ""));
        lift (py_setitem result "message" (PStr (py_str message +:+ delete_hint)))
      else ret result
  end.

Definition user_batch_get_id (token : string) (usernames : list string) : M pyval :=
  let request_data : gmap string pyval := {[ "usernames" := str_list usernames ]} in
  make_api_request "POST" "/api/open/v1/user/batch_get_id" (Some token)
    (with_json request_data).

End Adapter.

(** ** The tool surface

    One constructor per registered tool. A parameter with a default is
    an [option]: [None] is the caller leaving it out, and the default
    of the signature is taken when the call is bound. *)

Inductive tool_call : Type :=
  | IssueToken (access_key_id access_key_secret : string)
  | DepartmentList (token : string) (department_id : option string)
  | DepartmentDetail (token department_id : string)
  | DepartmentCreate (token name parent_id : string) (order : option Z)
  | DepartmentUpdate (token department_id : string) (name : option string) (order : option Z)
  | DepartmentDelete (token department_id : string)
  | RoleList (token : string)
  | RoleGet (token role_id : string)
  | RoleCreate (token name : string) (description : option string)
  | RoleUpdate (token role_id : string) (name description : option string)
  | RoleDelete (token role_id : string)
  | RoleMemberCreate (token role_id : string) (user_ids : list string)
  | RoleMemberDelete (token role_id : string) (user_ids : list string)
  | UserList (token department_id : string) (recursive : option bool)
  | UserGet (token user_id : string)
  | UserCreate (token username full_name department_id : string)
      (email mobile password : option string) (gender status : option Z)
  | UserSetStatus (token user_id : string) (status : Z)
  | UserUpdate (token user_id : string) (full_name email mobile department_id : option string)
      (role_ids : option (list string)) (status : option Z)
  | UserDelete (token user_id : string) (set_offline_first : option bool)
  | UserBatchGetId (token : string) (usernames : list string).

Definition invoke (be : backend) (repr_other : pyval -> string) (c : tool_call) : M pyval :=
  match c with
  | IssueToken k s => issue_token be k s
  | DepartmentList t d => department_list be t d
  | DepartmentDetail t d => department_detail be t d
  | DepartmentCreate t n p o => department_create be t n p o
  | DepartmentUpdate t d n o => department_update be t d n o
  | DepartmentDelete t d => department_delete be t d
  | RoleList t => role_list be t
  | RoleGet t r => role_get be t r
  | RoleCreate t n d => role_create be t n d
  | RoleUpdate t r n d => role_update be t r n d
  | RoleDelete t r => role_delete be t r
  | RoleMemberCreate t r us => role_member_create be t r us
  | RoleMemberDelete t r us => role_member_delete be t r us
  | UserList t d r => user_list be t d r
  | UserGet t u => user_get be t u
  | UserCreate t u f d e m p g s => user_create be t u f d e m p (default 1 g) (default 1 s)
  | UserSetStatus t u s => user_set_status be t u s
  | UserUpdate t u f e m d r s => user_update be t u f e m d r s
  | UserDelete t u o => user_delete be repr_other t u (default true o)
  | UserBatchGetId t us => user_batch_get_id be t us
  end.

(** The requests an operation adds to the history [h]. *)
Definition issued (m : M pyval) (h : list request) : list request :=
  drop (length h) (snd (m h)).

(** ** Backends used in the examples *)

(** Every request times out. *)
Definition be_down : backend := fun _ _ => Raised "timed out".

(** Every request is answered 200 with the same body. *)
Definition be_const (body : pyval) : backend :=
  fun _ _ => Responded {| status_code := 200; status_error := ""; json_body := inr body |}.

Definition ok_body : pyval := PDict {[ "code" := PInt 0; "message" := PStr "ok" ]}.

(** The update is refused with an application code, everything else is fine. *)
Definition be_refuse_update : backend :=
  fun _ r =>
    Responded {| status_code := 200; status_error := "";
                 json_body :=
                   inr (if String.eqb (req_url r) "/api/open/v1/user/update"
                        then PDict {[ "code" := PInt 1001; "message" := PStr "no such user" ]}
                        else ok_body) |}.

(** The update goes through, the delete is refused. *)
Definition be_refuse_delete : backend :=
  fun _ r =>
    Responded {| status_code := 200; status_error := "";
                 json_body :=
                   inr (if String.eqb (req_url r) "/api/open/v1/user/delete"
                        then PDict {[ "code" := PInt 1002; "message" := PStr "not offline" ]}
                        else ok_body) |}.

Definition repr_none : pyval -> string := fun _ => "".

(** From the spec's words, for the comparison with [user_set_status]:
    the general user update restricted to the status field is the one
    POST to the update endpoint whose body names the user and the new
    status and nothing else. *)
Definition update_status_only (be : backend) (token user_id : string) (status : Z) : M pyval :=
  make_api_request be "POST" "/api/open/v1/user/update" (Some token)
    (with_json {[ "id" := PStr user_id; "status" := PInt status ]}).

(** ** Definitions used in the statements *)

(** The two requests of [user_delete]. *)
Definition offline_request (token user_id : string) : request :=
  build_request "POST" "/api/open/v1/user/update" (Some token)
    (with_json (<["status" := PInt 3]> {[ "id" := PStr user_id ]})).

Definition delete_request (token user_id : string) : request :=
  build_request "POST" "/api/open/v1/user/delete" (Some token)
    (with_json {[ "id" := PStr user_id ]}).

(** The annotation of the delete result: the hint is put after the
    message when the code is not 0. *)
Definition annotated (repr_other : pyval -> string) (d : gmap string pyval)
    : gmap string pyval :=
  if py_ne_zero (default PNone (d !! "code"))
  then <["message" := PStr (py_str repr_other (default (PStr "") (d !! "message"))
                            +:+ delete_hint)]> d
  else d.

(** The operations that take a token: all but [issue_token]. *)
Definition takes_token (c : tool_call) : bool :=
  match c with
  | IssueToken _ _ => false
  | _ => true
  end.

(** From the spec's words and the signatures: a call in which every
    optional parameter is left out. *)
Definition only_required (c : tool_call) : bool :=
  match c with
  | DepartmentList _ None
  | DepartmentCreate _ _ _ None
  | DepartmentUpdate _ _ None None
  | RoleCreate _ _ None
  | RoleUpdate _ _ None None
  | UserList _ _ None
  | UserCreate _ _ _ _ None None None None None
  | UserUpdate _ _ None None None None None None
  | UserDelete _ _ None => true
  | DepartmentList _ _ | DepartmentCreate _ _ _ _ | DepartmentUpdate _ _ _ _
  | RoleCreate _ _ _ | RoleUpdate _ _ _ _ | UserList _ _ _
  | UserCreate _ _ _ _ _ _ _ _ _ | UserUpdate _ _ _ _ _ _ _ _ | UserDelete _ _ _ => false
  | _ => true
  end.

(** From the spec's words and the signatures: the payload made of the
    required parameters alone, each under its key (the token is not part
    of the payload). *)
Definition required_fields (c : tool_call) : gmap string pyval :=
  match c with
  | IssueToken k s => {[ "access_key_id" := PStr k; "access_key_secret" := PStr s ]}
  | DepartmentList _ _ => ∅
  | DepartmentDetail _ d => {[ "param" := PStr d ]}
  | DepartmentCreate _ n p _ => {[ "name" := PStr n; "parent_id" := PStr p ]}
  | DepartmentUpdate _ d _ _ => {[ "id" := PStr d ]}
  | DepartmentDelete _ d => {[ "id" := PStr d ]}
  | RoleList _ => ∅
  | RoleGet _ r => {[ "id" := PStr r ]}
  | RoleCreate _ n _ => {[ "name" := PStr n ]}
  | RoleUpdate _ r _ _ => {[ "id" := PStr r ]}
  | RoleDelete _ r => {[ "id" := PStr r ]}
  | RoleMemberCreate _ r us => {[ "role_id" := PStr r; "user_ids" := str_list us ]}
  | RoleMemberDelete _ r us => {[ "role_id" := PStr r; "user_ids" := str_list us ]}
  | UserList _ d _ => {[ "department_id" := PStr d ]}
  | UserGet _ u => {[ "id" := PStr u ]}
  | UserCreate _ u f d _ _ _ _ _ =>
      {[ "username" := PStr u; "full_name" := PStr f; "department_id" := PStr d ]}
  | UserSetStatus _ u s => {[ "id" := PStr u; "status" := PInt s ]}
  | UserUpdate _ u _ _ _ _ _ _ => {[ "id" := PStr u ]}
  | UserDelete _ u _ => {[ "id" := PStr u ]}
  | UserBatchGetId _ us => {[ "usernames" := str_list us ]}
  end.

(** The operations that send one request with the required fields as
    they are: all but [user_create] and [user_delete]. *)
Definition plain_payload (c : tool_call) : bool :=
  match c with
  | UserCreate _ _ _ _ _ _ _ _ _ | UserDelete _ _ _ => false
  | _ => true
  end.

(** A computation is quiet when it issues no request. *)
Definition quiet {A} (m : M A) : Prop := ∀ h, snd (m h) = h.

(** From the spec's words and the signatures: the optional parameters a
    call provides, each as the payload key it stands for and the value
    given. ([set_offline_first] of [user_delete] stands for no key.) *)
Definition opt_field (k : string) (x : option pyval) : list (string * pyval) :=
  match x with
  | Some v => [(k, v)]
  | None => []
  end.

Definition provided_optional (c : tool_call) : list (string * pyval) :=
  match c with
  | DepartmentList _ d => opt_field "id" (PStr <$> d)
  | DepartmentCreate _ _ _ o => opt_field "order" (PInt <$> o)
  | DepartmentUpdate _ _ n o => opt_field "name" (PStr <$> n) ++ opt_field "order" (PInt <$> o)
  | RoleCreate _ _ d => opt_field "description" (PStr <$> d)
  | RoleUpdate _ _ n d =>
      opt_field "name" (PStr <$> n) ++ opt_field "description" (PStr <$> d)
  | UserList _ _ r => opt_field "recursive" (PBool <$> r)
  | UserCreate _ _ _ _ e m p g s =>
      opt_field "email" (PStr <$> e) ++ opt_field "mobile" (PStr <$> m)
      ++ opt_field "password" (PStr <$> p) ++ opt_field "gender" (PInt <$> g)
      ++ opt_field "status" (PInt <$> s)
  | UserUpdate _ _ f e m d r s =>
      opt_field "full_name" (PStr <$> f) ++ opt_field "email" (PStr <$> e)
      ++ opt_field "mobile" (PStr <$> m) ++ opt_field "department_id" (PStr <$> d)
      ++ opt_field "role_ids" (str_list <$> r) ++ opt_field "status" (PInt <$> s)
  | _ => []
  end.

(** A boolean goes out as the integer 1 or 0; any other value as it is. *)
Definition wire_value (v : pyval) : pyval :=
  match v with
  | PBool b => PInt (if b then 1 else 0)
  | _ => v
  end.

(** [department_list] called with the empty string as department. *)
Definition empty_department (c : tool_call) : bool :=
  match c with
  | DepartmentList _ (Some d) => String.eqb d ""
  | _ => false
  end.

(** The token a call carries; [issue_token] has none. *)
Definition call_token (c : tool_call) : option string :=
  match c with
  | IssueToken _ _ => None
  | DepartmentList t _ | DepartmentDetail t _ | DepartmentCreate t _ _ _
  | DepartmentUpdate t _ _ _ | DepartmentDelete t _ | RoleList t | RoleGet t _
  | RoleCreate t _ _ | RoleUpdate t _ _ _ | RoleDelete t _ | RoleMemberCreate t _ _
  | RoleMemberDelete t _ _ | UserList t _ _ | UserGet t _
  | UserCreate t _ _ _ _ _ _ _ _ | UserSetStatus t _ _ | UserUpdate t _ _ _ _ _ _ _
  | UserDelete t _ _ | UserBatchGetId t _ => Some t
  end.

Definition is_user_delete (c : tool_call) : bool :=
  match c with
  | UserDelete _ _ _ => true
  | _ => false
  end.

(** A request as the operations make them: no headers of the caller's
    own, a path under /api/open/v1/, and either a GET with query
    parameters at most or a POST with a JSON body. *)
Definition well_shaped (r : request) : Prop :=
  String.prefix "/api/open/v1/" (req_url r) = true
  ∧ ((req_method r = "GET" ∧ req_json r = None)
     ∨ (req_method r = "POST" ∧ req_params r = None ∧ is_Some (req_json r))).

(** The keys [user_create] sends from the defaults of its signature. *)
Definition defaulted_keys (c : tool_call) : gset string :=
  match c with
  | UserCreate _ _ _ _ _ _ _ _ _ => {[ "gender"; "status" ]}
  | _ => ∅
  end.

(** * Properties *)

(** ** The operations on examples *)

Example issue_token_ok :
  fst (issue_token
         (be_const (PDict {[ "code" := PInt 0;
                             "data" := PDict {[ "access_token" := PStr "T";
                                                "expires_in" := PInt 7200 ]} ]}))
         "key-id" "key-secret" [])
  = Returns (PDict {[ "success" := PBool true;
                      "data" := PDict {[ "access_token" := PStr "T";
                                         "expires_in" := PInt 7200 ]} ]}).
Proof. reflexivity. Qed.

Example issue_token_error_body :
  fst (issue_token (be_const (PDict {[ "error" := PStr "bad key" ]})) "key-id" "key-secret" [])
  = Returns (PDict {[ "success" := PBool false; "error" := PStr "bad key" ]}).
Proof. reflexivity. Qed.

Example department_update_order_zero :
  payload <$> issued (department_update be_down "tok" "d1" None (Some 0)) []
  = [ {[ "id" := PStr "d1"; "order" := PInt 0 ]} ].
Proof. reflexivity. Qed.

Example user_delete_refused :
  fst (user_delete be_refuse_delete repr_none "tok" "u1" true [])
  = Returns (PDict {[ "code" := PInt 1002;
                      "message" := PStr ("not offline" +:+ delete_hint) ]}).
Proof. reflexivity. Qed.

(** ** Basic facts about the monad and the invoker *)

Lemma is_success_2xx (r : response) :
  is_success r = true <-> 200 <= status_code r <= 299.
Proof. unfold is_success. rewrite andb_true_iff, !Z.leb_le. tauto. Qed.

Lemma opt_truthy_Some (t : string) : opt_truthy (Some t) = true <-> t ≠ "".
Proof.
  unfold opt_truthy. rewrite negb_true_iff. split.
  - intros H ->. discriminate.
  - intros H. apply String.eqb_neq. exact H.
Qed.

Lemma make_api_request_history be method url token kw h :
  snd (make_api_request be method url token kw h) = h ++ [build_request method url token kw].
Proof. unfold make_api_request. by destruct (try_body _). Qed.

Lemma make_api_request_issued be method url token kw h :
  issued (make_api_request be method url token kw) h = [build_request method url token kw].
Proof.
  unfold issued. rewrite make_api_request_history.
  by rewrite drop_app_length.
Qed.

Lemma make_api_request_result be method url token kw h :
  fst (make_api_request be method url token kw h)
  = Returns (match try_body (be h (build_request method url token kw)) with
             | inr v => v
             | inl e => failure_envelope e
             end).
Proof. unfold make_api_request. by destruct (try_body _). Qed.

(** [make_api_request] as a pair, for rewriting under [bind]. *)
Lemma make_api_request_run be method url token kw h :
  make_api_request be method url token kw h
  = (Returns (match try_body (be h (build_request method url token kw)) with
              | inr v => v
              | inl e => failure_envelope e
              end),
     h ++ [build_request method url token kw]).
Proof. unfold make_api_request. by destruct (try_body _). Qed.

(** ** The failure envelope of the invoker *)

(** C2: whatever the request raises (the transport, a status that is not
    2xx, or the JSON decoding), [make_api_request] returns the envelope
    [{code:500, action:"alert", message:str(e), data:None, success:False}],
    and a 2xx response with a JSON body gives that body unchanged. *)
Theorem make_api_request_envelope (be : backend) (method url : string)
    (token : option string) (kw : kwargs) (h : list request) :
  let req := build_request method url token kw in
  let result := fst (make_api_request be method url token kw h) in
  (∀ e, be h req = Raised e → result = Returns (failure_envelope e))
  ∧ (∀ r, be h req = Responded r → ¬ (200 <= status_code r <= 299) →
       result = Returns (failure_envelope (status_error r)))
  ∧ (∀ r e, be h req = Responded r → 200 <= status_code r <= 299 →
       json_body r = inl e → result = Returns (failure_envelope e))
  ∧ (∀ r v, be h req = Responded r → 200 <= status_code r <= 299 →
       json_body r = inr v → result = Returns v)
  ∧ (∀ e, failure_envelope e
          = PDict (<["success" := PBool false]> (<["data" := PNone]>
                  (<["message" := PStr e]> (<["action" := PStr "alert"]>
                  (<["code" := PInt 500]> ∅)))))).
Proof.
  intros req result. subst req result.
  rewrite make_api_request_result.
  repeat split.
  - intros e ->. reflexivity.
  - intros r -> Hns. simpl.
    destruct (is_success r) eqn:Hs; [|reflexivity].
    apply is_success_2xx in Hs. contradiction.
  - intros r e -> Hs%is_success_2xx Hj. simpl. by rewrite Hs, Hj.
  - intros r v -> Hs%is_success_2xx Hj. simpl. by rewrite Hs, Hj.
Qed.

Lemma make_api_request_envelope_witness :
  fst (make_api_request be_down "GET" "/api/open/v1/role/list" (Some "tok") no_kwargs [])
    = Returns (failure_envelope "timed out")
  ∧ fst (make_api_request (be_const ok_body) "GET" "/api/open/v1/role/list" (Some "tok")
           no_kwargs []) = Returns ok_body.
Proof.
  split.
  - apply (proj1 (make_api_request_envelope be_down "GET" "/api/open/v1/role/list"
                    (Some "tok") no_kwargs [])).
    reflexivity.
  - apply (proj1 (proj2 (proj2 (proj2
             (make_api_request_envelope (be_const ok_body) "GET" "/api/open/v1/role/list"
                (Some "tok") no_kwargs []))))
             {| status_code := 200; status_error := ""; json_body := inr ok_body |}).
    + reflexivity.
    + simpl. lia.
    + reflexivity.
Defined.

(** ** The Authorization header *)

Lemma client_has_no_authorization : client_headers get_client !! "Authorization" = None.
Proof. reflexivity. Qed.

Lemma sent_headers_authorization (r : request) :
  sent_headers r !! "Authorization" = req_headers r !! "Authorization".
Proof.
  unfold sent_headers. rewrite lookup_union, client_has_no_authorization.
  by destruct (req_headers r !! "Authorization").
Qed.

(** C7: a non-empty token is the value of the outgoing Authorization
    header as it is, with nothing put before it; without a token (or
    with an empty one) the headers are the ones the caller passed, so
    that no Authorization header goes out when none was passed. *)
Theorem authorization_header_verbatim (be : backend) (method url : string)
    (kw : kwargs) (h : list request) :
  (∀ tok : string, tok ≠ "" →
     ∃ r, issued (make_api_request be method url (Some tok) kw) h = [r]
          ∧ sent_headers r !! "Authorization" = Some tok)
  ∧ (∀ token : option string, opt_truthy token = false →
       ∃ r, issued (make_api_request be method url token kw) h = [r]
            ∧ req_headers r = default ∅ (kw_headers kw)
            ∧ (kw_headers kw = None → sent_headers r !! "Authorization" = None)).
Proof.
  split.
  - intros tok Htok. eexists. split; [apply make_api_request_issued|].
    rewrite sent_headers_authorization. unfold build_request.
    apply opt_truthy_Some in Htok. rewrite Htok. simpl.
    apply lookup_insert_eq.
  - intros token Hfalse. eexists. split; [apply make_api_request_issued|].
    assert (Hh : req_headers (build_request method url token kw) = default ∅ (kw_headers kw)).
    { unfold build_request. simpl. destruct token as [t|]; [by rewrite Hfalse | done]. }
    split; [exact Hh|].
    intros Hnone. rewrite sent_headers_authorization, Hh, Hnone. reflexivity.
Qed.

Lemma authorization_header_verbatim_witness :
  (∃ r, issued (make_api_request be_down "GET" "/api/open/v1/role/list"
                  (Some "Bearer-less token") no_kwargs) [] = [r]
        ∧ sent_headers r !! "Authorization" = Some "Bearer-less token")
  ∧ (∃ r, issued (make_api_request be_down "POST" "/api/open/v1/token" None no_kwargs) [] = [r]
          ∧ req_headers r = default ∅ (kw_headers no_kwargs)
          ∧ (kw_headers no_kwargs = None → sent_headers r !! "Authorization" = None)).
Proof.
  split.
  - apply (proj1 (authorization_header_verbatim be_down "GET" "/api/open/v1/role/list"
                    no_kwargs [])).
    discriminate.
  - apply (proj2 (authorization_header_verbatim be_down "POST" "/api/open/v1/token"
                    no_kwargs [])).
    reflexivity.
Defined.

(** ** The recursive flag of [user_list] *)

(** C6: [user_list] sends the query key "recursive" as the integer 1
    for [True], as 0 for [False], and sends no such key when the flag is
    left at [None]. *)
Theorem user_list_recursive (be : backend) (token department_id : string)
    (h : list request) :
  (∃ r p, issued (user_list be token department_id (Some true)) h = [r]
          ∧ req_params r = Some p ∧ p !! "recursive" = Some (PInt 1))
  ∧ (∃ r p, issued (user_list be token department_id (Some false)) h = [r]
            ∧ req_params r = Some p ∧ p !! "recursive" = Some (PInt 0))
  ∧ (∃ r p, issued (user_list be token department_id None) h = [r]
            ∧ req_params r = Some p ∧ p !! "recursive" = None).
Proof.
  unfold user_list. repeat split; do 2 eexists;
    (split; [apply make_api_request_issued|]); (split; [reflexivity|]); reflexivity.
Qed.

(** ** The status setter *)

(** C8: [user_set_status token user_id status] is [user_update] called
    with the status alone: same result and same request, and that
    request is the update restricted to the status field. *)
Theorem user_set_status_is_update (be : backend) (token user_id : string) (status : Z)
    (h : list request) :
  user_set_status be token user_id status h
    = user_update be token user_id None None None None None (Some status) h
  ∧ user_set_status be token user_id status h
    = update_status_only be token user_id status h.
Proof.
  split; [reflexivity|].
  unfold user_set_status, user_update, update_status_only, set_opt. simpl.
  replace (<["status" := PInt status]> ({[ "id" := PStr user_id ]} : gmap string pyval))
    with ({[ "id" := PStr user_id; "status" := PInt status ]} : gmap string pyval);
    [reflexivity|].
  apply map_eq. intros k.
  destruct (decide (k = "id")) as [->|Hid]; [reflexivity|].
  destruct (decide (k = "status")) as [->|Hst]; [reflexivity|].
  by rewrite !lookup_insert_ne, !lookup_singleton_ne.
Qed.

(** ** User deletion *)

Ltac step_monad := unfold bind, ret, lift; simpl.

Lemma offline_update_history be token user_id h :
  snd (user_update be token user_id None None None None None (Some 3) h)
  = h ++ [offline_request token user_id].
Proof. unfold user_update. simpl. apply make_api_request_history. Qed.

(** The delete step alone, from the history [h]. *)
Lemma delete_step be repr_other token user_id h :
  user_delete be repr_other token user_id false h
  = (let result := fst (make_api_request be "POST" "/api/open/v1/user/delete" (Some token)
                          (with_json {[ "id" := PStr user_id ]}) h) in
     match result with
     | Returns (PDict d) => Returns (PDict (annotated repr_other d))
     | Returns v => Raises (AttributeError (type_name v) "get")
     | Raises e => Raises e
     end,
     h ++ [delete_request token user_id]).
Proof.
  unfold user_delete. step_monad.
  rewrite make_api_request_run. simpl.
  destruct (match try_body _ with inr v => v | inl e => failure_envelope e end)
    as [| | | | | |d]; try reflexivity.
  simpl. unfold annotated.
  destruct (py_ne_zero (default PNone (d !! "code"))); reflexivity.
Qed.

(** What the delete step returns when the delete's result is the
    dictionary [d]. *)
Lemma delete_step_result be repr_other token user_id h (d : gmap string pyval) :
  fst (make_api_request be "POST" "/api/open/v1/user/delete" (Some token)
         (with_json {[ "id" := PStr user_id ]}) h) = Returns (PDict d) →
  fst (user_delete be repr_other token user_id false h)
  = Returns (PDict (annotated repr_other d)).
Proof. intros Hd. rewrite delete_step. simpl. by rewrite Hd. Qed.

(** The annotation rule, by the code of the delete's result. *)
Lemma annotated_rule repr_other (d : gmap string pyval) :
  (py_eq_zero (default PNone (d !! "code")) = false →
     annotated repr_other d !! "message"
     = Some (PStr (py_str repr_other (default (PStr "") (d !! "message"))
                   +:+ delete_hint)))
  ∧ (py_eq_zero (default PNone (d !! "code")) = true → annotated repr_other d = d).
Proof.
  unfold annotated, py_ne_zero.
  split; intros ->; simpl; [apply lookup_insert_eq | reflexivity].
Qed.

(** C10: with [set_offline_first=False] the pre-step is skipped: the one
    request issued is the POST to /api/open/v1/user/delete with body
    [{id: user_id}], no update request goes out, and the result of the
    delete is annotated by the same rule (the hint is put after the
    message when its code is not 0, and it is returned as it is when
    the code is 0). *)
Theorem user_delete_without_prestep (be : backend) (repr_other : pyval -> string)
    (token user_id : string) (h : list request) :
  (∃ r, issued (user_delete be repr_other token user_id false) h = [r]
        ∧ req_method r = "POST"
        ∧ req_url r = "/api/open/v1/user/delete"
        ∧ req_json r = Some {[ "id" := PStr user_id ]}
        ∧ req_params r = None
        ∧ req_url r ≠ "/api/open/v1/user/update")
  ∧ (∀ d : gmap string pyval,
       fst (make_api_request be "POST" "/api/open/v1/user/delete" (Some token)
              (with_json {[ "id" := PStr user_id ]}) h) = Returns (PDict d) →
       fst (user_delete be repr_other token user_id false h)
         = Returns (PDict (annotated repr_other d))
       ∧ (py_eq_zero (default PNone (d !! "code")) = false →
            annotated repr_other d !! "message"
            = Some (PStr (py_str repr_other (default (PStr "") (d !! "message"))
                          +:+ delete_hint)))
       ∧ (py_eq_zero (default PNone (d !! "code")) = true →
            annotated repr_other d = d)).
Proof.
  split.
  - exists (delete_request token user_id).
    unfold issued. rewrite delete_step. simpl.
    rewrite drop_app_length. repeat split; done.
  - intros d Hd. split; [by apply delete_step_result | apply annotated_rule].
Qed.

Lemma user_delete_without_prestep_witness :
  fst (user_delete be_refuse_delete repr_none "tok" "u1" false [])
  = Returns (PDict (annotated repr_none
                      {[ "code" := PInt 1002; "message" := PStr "not offline" ]})).
Proof.
  apply (proj2 (user_delete_without_prestep be_refuse_delete repr_none "tok" "u1" [])).
  reflexivity.
Defined.

(** The run of [user_delete] with the pre-step, once the update has
    returned the dictionary [d]. *)
Lemma prestep_run be repr_other token user_id h (d : gmap string pyval) :
  fst (user_update be token user_id None None None None None (Some 3) h)
    = Returns (PDict d) →
  user_delete be repr_other token user_id true h
  = if py_ne_zero (default PNone (d !! "code"))
    then (Returns (PDict {[ "code" := default (PInt 500) (d !! "code");
                            "action" := PStr "alert";
                            "message" := PStr (offline_failed_prefix
                                               +:+ py_str repr_other
                                                     (default (PStr "") (d !! "message")));
                            "data" := PNone ]}),
          h ++ [offline_request token user_id])
    else user_delete be repr_other token user_id false (h ++ [offline_request token user_id]).
Proof.
  intros Hd. pose proof (offline_update_history be token user_id h) as Hh.
  unfold user_delete at 1. unfold bind at 1 2.
  destruct (user_update be token user_id None None None None None (Some 3) h)
    as [o h1] eqn:Hrun.
  simpl in Hd, Hh. subst o h1. step_monad.
  destruct (py_ne_zero (default PNone (d !! "code"))) eqn:Hcode; simpl.
  - reflexivity.
  - unfold user_delete. step_monad. reflexivity.
Qed.

(** C9: when the pre-step returns a code that is not 0, the envelope
    [user_delete] returns has the four keys code, action, message and
    data and no others: action is "alert", data is [None], code is the
    code of the pre-step result, or 500 when that has none, and there is
    no success key, as there is in the failure envelope of the
    invoker. *)
Theorem user_delete_abort_envelope (be : backend) (repr_other : pyval -> string)
    (token user_id : string) (h : list request) (d : gmap string pyval) :
  fst (user_update be token user_id None None None None None (Some 3) h)
    = Returns (PDict d) →
  py_eq_zero (default PNone (d !! "code")) = false →
  ∃ env : gmap string pyval,
    fst (user_delete be repr_other token user_id true h) = Returns (PDict env)
    ∧ dom env = {[ "code"; "action"; "message"; "data" ]}
    ∧ env !! "code" = Some (default (PInt 500) (d !! "code"))
    ∧ env !! "action" = Some (PStr "alert")
    ∧ env !! "data" = Some PNone
    ∧ is_Some (env !! "message")
    ∧ env !! "success" = None
    ∧ (∀ e, failure_envelope e = PDict env → False).
Proof.
  intros Hd Hcode. rewrite (prestep_run _ _ _ _ _ _ Hd).
  unfold py_ne_zero. rewrite Hcode. simpl.
  eexists. split; [reflexivity|].
  split; [rewrite !dom_insert_L, dom_singleton_L; set_solver|].
  repeat split; done.
Qed.

Lemma user_delete_abort_envelope_witness :
  ∃ env : gmap string pyval,
    fst (user_delete be_refuse_update repr_none "tok" "u1" true []) = Returns (PDict env)
    ∧ dom env = {[ "code"; "action"; "message"; "data" ]}
    ∧ env !! "code" = Some (default (PInt 500)
                              (({[ "code" := PInt 1001; "message" := PStr "no such user" ]}
                                : gmap string pyval) !! "code"))
    ∧ env !! "action" = Some (PStr "alert")
    ∧ env !! "data" = Some PNone
    ∧ is_Some (env !! "message")
    ∧ env !! "success" = None
    ∧ (∀ e, failure_envelope e = PDict env → False).
Proof.
  apply (user_delete_abort_envelope be_refuse_update repr_none "tok" "u1" []
           {[ "code" := PInt 1001; "message" := PStr "no such user" ]}).
  - reflexivity.
  - reflexivity.
Defined.

Lemma string_length_app (s t : string) :
  String.length (s +:+ t) = (String.length s + String.length t)%nat.
Proof. induction s as [|a s IH]; simpl; [reflexivity | by rewrite IH]. Qed.

(** A short message cannot end in the deletion hint. *)
Lemma not_suffixed_ok (s : string) : "ok" ≠ s +:+ delete_hint.
Proof.
  intros H. apply (f_equal String.length) in H.
  rewrite string_length_app in H.
  change (String.length "ok") with 2%nat in H.
  assert (Hlen : String.length delete_hint = 83%nat) by (vm_compute; reflexivity).
  rewrite Hlen in H. lia.
Qed.

(** C3, the claim as stated fails: the update returns code 0, the delete
    is issued and returns code 0 too, and the message of the result is
    the backend's "ok", with no hint after it. *)
Lemma user_delete_hint_counterexample :
  fst (user_update (be_const ok_body) "tok" "u1" None None None None None (Some 3) [])
    = Returns (PDict {[ "code" := PInt 0; "message" := PStr "ok" ]})
  ∧ issued (user_delete (be_const ok_body) repr_none "tok" "u1" true) []
    = [offline_request "tok" "u1"; delete_request "tok" "u1"]
  ∧ ∃ d : gmap string pyval,
      fst (user_delete (be_const ok_body) repr_none "tok" "u1" true []) = Returns (PDict d)
      ∧ d !! "message" = Some (PStr "ok")
      ∧ ∀ s, "ok" ≠ s +:+ delete_hint.
Proof.
  split; [reflexivity|]. split; [reflexivity|].
  exists {[ "code" := PInt 0; "message" := PStr "ok" ]}.
  split; [reflexivity|]. split; [reflexivity|]. apply not_suffixed_ok.
Qed.

(** C3, as the code has it: with the pre-step on and its result a
    dictionary, (a) when the update's code equals 0 the delete is issued
    after it, and the result of the delete comes back with the hint put
    after its message when the delete's own code is not 0 and as it is
    when that code is 0; (b) when the update's code is not 0 (or is
    missing) the update is the only request, the delete is not issued,
    and the message of the returned envelope is the fixed prefix
    followed by the update's message text. *)
Theorem user_delete_with_prestep (be : backend) (repr_other : pyval -> string)
    (token user_id : string) (h : list request) (d : gmap string pyval) :
  fst (user_update be token user_id None None None None None (Some 3) h)
    = Returns (PDict d) →
  (py_eq_zero (default PNone (d !! "code")) = true →
     issued (user_delete be repr_other token user_id true) h
       = [offline_request token user_id; delete_request token user_id]
     ∧ ∀ d2 : gmap string pyval,
         fst (make_api_request be "POST" "/api/open/v1/user/delete" (Some token)
                (with_json {[ "id" := PStr user_id ]})
                (h ++ [offline_request token user_id])) = Returns (PDict d2) →
         fst (user_delete be repr_other token user_id true h)
           = Returns (PDict (annotated repr_other d2))
         ∧ (py_eq_zero (default PNone (d2 !! "code")) = false →
              annotated repr_other d2 !! "message"
              = Some (PStr (py_str repr_other (default (PStr "") (d2 !! "message"))
                            +:+ delete_hint)))
         ∧ (py_eq_zero (default PNone (d2 !! "code")) = true →
              annotated repr_other d2 = d2))
  ∧ (py_eq_zero (default PNone (d !! "code")) = false →
       issued (user_delete be repr_other token user_id true) h
         = [offline_request token user_id]
       ∧ ∃ env : gmap string pyval,
           fst (user_delete be repr_other token user_id true h) = Returns (PDict env)
           ∧ env !! "message"
             = Some (PStr (offline_failed_prefix
                           +:+ py_str repr_other (default (PStr "") (d !! "message"))))).
Proof.
  intros Hd. unfold issued. rewrite (prestep_run _ _ _ _ _ _ Hd). unfold py_ne_zero.
  split; intros Hcode; rewrite Hcode; cbn [negb fst snd].
  - split.
    + rewrite delete_step. cbn [snd]. rewrite <- app_assoc. by rewrite drop_app_length.
    + intros d2 Hd2.
      split; [by apply delete_step_result | apply annotated_rule].
  - split; [by rewrite drop_app_length|].
    eexists. split; [reflexivity|]. reflexivity.
Qed.

Lemma user_delete_with_prestep_witness :
  issued (user_delete be_refuse_update repr_none "tok" "u1" true) []
    = [offline_request "tok" "u1"]
  ∧ ∃ env : gmap string pyval,
      fst (user_delete be_refuse_update repr_none "tok" "u1" true []) = Returns (PDict env)
      ∧ env !! "message"
        = Some (PStr (offline_failed_prefix
                      +:+ py_str repr_none
                            (default (PStr "")
                               (({[ "code" := PInt 1001; "message" := PStr "no such user" ]}
                                 : gmap string pyval) !! "message")))).
Proof.
  apply (proj2 (user_delete_with_prestep be_refuse_update repr_none "tok" "u1" []
                  {[ "code" := PInt 1001; "message" := PStr "no such user" ]}
                  eq_refl)).
  reflexivity.
Defined.

(** ** Network failure *)

Lemma string_app_nonempty_l (s t : string) : s ≠ "" → s +:+ t ≠ "".
Proof. destruct s; [done | discriminate]. Qed.

Lemma string_app_nonempty_r (s t : string) : t ≠ "" → s +:+ t ≠ "".
Proof. destruct s; [done | discriminate]. Qed.

(** When the request fails in the transport, the invoker's result is
    the failure envelope. *)
Lemma make_api_request_down be method url token kw h e :
  (∀ r, be h r = Raised e) →
  make_api_request be method url token kw h
  = (Returns (failure_envelope e), h ++ [build_request method url token kw]).
Proof. intros Hdown. rewrite make_api_request_run, Hdown. reflexivity. Qed.

(** C1, the claim as stated fails: with every request timing out,
    [issue_token] raises (the envelope's "data" is [None], which has no
    [get]), and [user_delete] returns its abort envelope, which has no
    "success" key. *)
Lemma network_failure_counterexample :
  (∀ h r, be_down h r = Raised "timed out")
  ∧ fst (invoke be_down repr_none (IssueToken "key-id" "key-secret") [])
    = Raises (AttributeError "NoneType" "get")
  ∧ ∃ env : gmap string pyval,
      fst (invoke be_down repr_none (UserDelete "tok" "u1" None) []) = Returns (PDict env)
      ∧ env !! "success" = None.
Proof.
  split; [reflexivity|]. split; [reflexivity|].
  eexists. split; reflexivity.
Qed.

(** C1, as the code has it: when the HTTP call fails in the transport
    with text [e], every operation that takes a token returns (it does
    not raise) a mapping with code 500, action "alert" and a message
    that is not empty when [e] is not. For all of them but [user_delete]
    the mapping is the failure envelope itself (success [False], message
    [e]); [user_delete] with the pre-step returns its abort envelope
    (message: the fixed prefix and [e]; no success key), and without the
    pre-step the failure envelope with the hint after [e]. *)
Theorem network_failure_envelope (be : backend) (repr_other : pyval -> string)
    (c : tool_call) (h : list request) (e : string) :
  (∀ r, be h r = Raised e) →
  takes_token c = true →
  ∃ (env : gmap string pyval) (m : string),
    fst (invoke be repr_other c h) = Returns (PDict env)
    ∧ env !! "code" = Some (PInt 500)
    ∧ env !! "action" = Some (PStr "alert")
    ∧ env !! "message" = Some (PStr m)
    ∧ (e ≠ "" → m ≠ "")
    ∧ match c with
      | UserDelete _ _ o =>
          if default true o
          then m = offline_failed_prefix +:+ e ∧ env !! "success" = None
          else m = e +:+ delete_hint ∧ env !! "success" = Some (PBool false)
      | _ => PDict env = failure_envelope e
      end.
Proof.
  intros Hdown Htok.
  assert (Hsimple : ∀ method url token kw,
            ∃ (env : gmap string pyval) (m : string),
              fst (make_api_request be method url token kw h) = Returns (PDict env)
              ∧ env !! "code" = Some (PInt 500)
              ∧ env !! "action" = Some (PStr "alert")
              ∧ env !! "message" = Some (PStr m)
              ∧ (e ≠ "" → m ≠ "")
              ∧ PDict env = failure_envelope e).
  { intros. rewrite (make_api_request_down _ _ _ _ _ _ _ Hdown).
    do 2 eexists. split; [reflexivity|]. repeat split; done. }
  destruct c; try discriminate Htok; try (apply Hsimple).
  simpl. destruct set_offline_first as [[|]|]; simpl.
  - erewrite prestep_run by (unfold user_update; rewrite (make_api_request_down _ _ _ _ _ _ _ Hdown);
                             reflexivity).
    simpl. do 2 eexists. split; [reflexivity|].
    repeat split; try done; intros _; by apply string_app_nonempty_l.
  - rewrite delete_step, (make_api_request_down _ _ _ _ _ _ _ Hdown). simpl.
    do 2 eexists. split; [reflexivity|].
    repeat split; try done; intros _; by apply string_app_nonempty_r.
  - erewrite prestep_run by (unfold user_update; rewrite (make_api_request_down _ _ _ _ _ _ _ Hdown);
                             reflexivity).
    simpl. do 2 eexists. split; [reflexivity|].
    repeat split; try done; intros _; by apply string_app_nonempty_l.
Qed.

Lemma network_failure_envelope_witness :
  ∃ (env : gmap string pyval) (m : string),
    fst (invoke be_down repr_none (UserGet "tok" "u1") []) = Returns (PDict env)
    ∧ env !! "code" = Some (PInt 500)
    ∧ env !! "action" = Some (PStr "alert")
    ∧ env !! "message" = Some (PStr m)
    ∧ ("timed out" ≠ "" → m ≠ "")
    ∧ PDict env = failure_envelope "timed out".
Proof.
  apply (network_failure_envelope be_down repr_none (UserGet "tok" "u1") [] "timed out").
  - reflexivity.
  - reflexivity.
Defined.

(** ** Request payloads *)

(** The requests of [user_delete] with the pre-step, whatever the
    backend answers: the update, and then the delete or nothing. *)
Lemma prestep_issued be repr_other token user_id h :
  issued (user_delete be repr_other token user_id true) h = [offline_request token user_id]
  ∨ issued (user_delete be repr_other token user_id true) h
    = [offline_request token user_id; delete_request token user_id].
Proof.
  unfold issued.
  destruct (fst (user_update be token user_id None None None None None (Some 3) h))
    as [[| | | | | |d]|e] eqn:Hupd.
  7: { rewrite (prestep_run _ _ _ _ _ _ Hupd).
       destruct (py_ne_zero _); cbn [snd].
       - left. by rewrite drop_app_length.
       - right. rewrite delete_step. cbn [snd]. rewrite <- app_assoc.
         by rewrite drop_app_length. }
  all: left; revert Hupd; unfold user_delete, user_update; step_monad;
    rewrite make_api_request_run; cbn [fst]; intros Hupd;
    injection Hupd as Hupd || discriminate Hupd;
    rewrite Hupd; simpl; by rewrite drop_app_length.
Qed.

Lemma quiet_ret {A} (a : A) : quiet (ret a).
Proof. intros h. reflexivity. Qed.

Lemma quiet_lift {A} (o : outcome A) : quiet (lift o).
Proof. intros h. reflexivity. Qed.

Lemma quiet_bind {A B} (m : M A) (k : A → M B) :
  quiet m → (∀ a, quiet (k a)) → quiet (bind m k).
Proof.
  intros Hm Hk h. unfold bind. specialize (Hm h).
  destruct (m h) as [[a|e] h1]; simpl in Hm; subst h1; [apply Hk | reflexivity].
Qed.

Lemma quiet_if {A} (b : bool) (m1 m2 : M A) :
  quiet m1 → quiet m2 → quiet (if b then m1 else m2).
Proof. by destruct b. Qed.

(** After a request, a quiet continuation leaves that request alone in
    the history. *)
Lemma request_then_quiet {B} be method url token kw (k : pyval → M B) h :
  (∀ v, quiet (k v)) →
  snd (bind (make_api_request be method url token kw) k h)
  = h ++ [build_request method url token kw].
Proof.
  intros Hk. unfold bind. rewrite make_api_request_run. apply Hk.
Qed.

(** [issue_token] issues its one request whatever comes back. *)
Lemma issue_token_issued be access_key_id access_key_secret h :
  issued (issue_token be access_key_id access_key_secret) h
  = [build_request "POST" "/api/open/v1/token" None
       (with_json {[ "access_key_id" := PStr access_key_id;
                     "access_key_secret" := PStr access_key_secret ]})].
Proof.
  unfold issued, issue_token. rewrite request_then_quiet.
  - by rewrite drop_app_length.
  - intros v. apply quiet_bind.
    + apply quiet_if; [apply quiet_ret | apply quiet_lift].
    + intros failed. apply quiet_if.
      * apply quiet_bind; [apply quiet_lift | intros; apply quiet_ret].
      * repeat (apply quiet_bind; [apply quiet_lift | intros]). apply quiet_ret.
Qed.

(** C4, the claim as stated fails on [user_create]: called with the
    three required parameters only, its body also carries "gender" and
    "status", the defaults of the signature. *)
Lemma required_only_counterexample :
  let c := UserCreate "tok" "jdoe" "John Doe" "d1" None None None None None in
  only_required c = true
  ∧ ∃ r, issued (invoke be_down repr_none c) [] = [r]
         ∧ dom (payload r) ≠ dom (required_fields c)
         ∧ payload r !! "gender" = Some (PInt 1)
         ∧ payload r !! "status" = Some (PInt 1).
Proof.
  split; [reflexivity|]. eexists. split; [reflexivity|].
  split; [|split; reflexivity].
  intros Hdom.
  apply (f_equal (λ s : gset string, bool_decide ("gender" ∈ s))) in Hdom.
  vm_compute in Hdom. discriminate Hdom.
Qed.

(** C4, as the code has it: with the optional parameters left out,
    every operation but [user_create] and [user_delete] sends one
    request whose payload is the required fields and nothing else;
    [user_create] sends the three required fields together with
    "gender" and "status" at their default 1; [user_delete] sends the
    update with [{id, status: 3}] and then, at most, the delete with
    [{id}] alone. *)
Theorem required_only_payload (be : backend) (repr_other : pyval -> string)
    (c : tool_call) (h : list request) :
  only_required c = true →
  (plain_payload c = true →
     ∃ r, issued (invoke be repr_other c) h = [r] ∧ payload r = required_fields c)
  ∧ (∀ t u f d, c = UserCreate t u f d None None None None None →
       ∃ r, issued (invoke be repr_other c) h = [r]
            ∧ payload r = <["gender" := PInt 1]> (<["status" := PInt 1]> (required_fields c)))
  ∧ (∀ t u, c = UserDelete t u None →
       ∃ r1 r2, (issued (invoke be repr_other c) h = [r1]
                 ∨ issued (invoke be repr_other c) h = [r1; r2])
                ∧ payload r1 = <["status" := PInt 3]> (required_fields c)
                ∧ payload r2 = required_fields c).
Proof.
  intros Hreq. split; [|split].
  - intros Hplain.
    destruct c; try discriminate Hplain; simpl in Hreq |- *;
      repeat match goal with
             | x : option _ |- _ => destruct x; try discriminate Hreq
             end;
      eexists;
      (split; [first [apply make_api_request_issued | apply issue_token_issued]
              | reflexivity]).
  - intros t u f d ->. simpl. eexists. split; [apply make_api_request_issued|].
    simpl. apply map_eq. intros k.
    destruct (decide (k = "username")) as [->|?]; [reflexivity|].
    destruct (decide (k = "full_name")) as [->|?]; [reflexivity|].
    destruct (decide (k = "department_id")) as [->|?]; [reflexivity|].
    destruct (decide (k = "gender")) as [->|?]; [reflexivity|].
    destruct (decide (k = "status")) as [->|?]; [reflexivity|].
    unfold payload, build_request, with_json; cbn [req_json kw_json].
    rewrite !lookup_insert_ne by congruence.
    by rewrite !lookup_singleton_ne by congruence.
  - intros t u ->. simpl.
    exists (offline_request t u), (delete_request t u).
    split; [apply prestep_issued|]. split; reflexivity.
Qed.

Lemma required_only_payload_witness :
  ∃ r, issued (invoke be_down repr_none (DepartmentCreate "tok" "Sales" "root" None)) [] = [r]
       ∧ payload r = required_fields (DepartmentCreate "tok" "Sales" "root" None).
Proof.
  apply (proj1 (required_only_payload be_down repr_none
                  (DepartmentCreate "tok" "Sales" "root" None) [] eq_refl)).
  reflexivity.
Defined.

Lemma elem_of_opt_field (k k' : string) (v : pyval) (x : option pyval) :
  (k, v) ∈ opt_field k' x → k = k' ∧ x = Some v.
Proof.
  destruct x as [w|]; simpl.
  - intros Hin%list_elem_of_singleton. by injection Hin as -> ->.
  - intros Hin. by apply elem_of_nil in Hin.
Qed.

Lemma set_opt_lookup_eq (k : string) (v : pyval) (d : gmap string pyval) :
  set_opt k (Some v) d !! k = Some v.
Proof. apply lookup_insert_eq. Qed.

Lemma set_opt_lookup_ne (k k' : string) (x : option pyval) (d : gmap string pyval) :
  k ≠ k' → set_opt k' x d !! k = d !! k.
Proof. intros Hne. destruct x; simpl; [by apply lookup_insert_ne | done]. Qed.

(** C5, the claim as stated fails on [department_list]: the empty
    string given as [department_id] is dropped, no "id" key goes out. *)
Lemma provided_optional_counterexample :
  let c := DepartmentList "tok" (Some "") in
  ("id", PStr "") ∈ provided_optional c
  ∧ ∃ r, issued (invoke be_down repr_none c) [] = [r]
         ∧ payload r !! "id" = None.
Proof.
  split; [apply list_elem_of_singleton; reflexivity|].
  eexists. split; reflexivity.
Qed.

Ltac split_fields H :=
  repeat (apply elem_of_app in H as [H|H]);
  apply elem_of_opt_field in H as [-> H];
  apply fmap_Some in H as (? & -> & ->).

Ltac lookup_field :=
  unfold payload, build_request, with_json, with_params;
  cbn [req_json req_params kw_json kw_params default];
  repeat (rewrite set_opt_lookup_ne by done);
  first [ apply set_opt_lookup_eq | reflexivity ].

(** C5, as the code has it: an optional parameter that is given goes
    out under its key with the value given, falsy values included
    ([order=0], an empty name), with two exceptions: the boolean
    [recursive] goes out as 1 or 0, and the empty string given as the
    department of [department_list] is left aside. *)
Theorem provided_optional_payload (be : backend) (repr_other : pyval -> string)
    (c : tool_call) (h : list request) :
  ∀ k v, (k, v) ∈ provided_optional c → empty_department c = false →
    ∃ r, issued (invoke be repr_other c) h = [r]
         ∧ payload r !! k = Some (wire_value v).
Proof.
  intros k v Hin Hne.
  destruct c; simpl in Hin; try (by apply elem_of_nil in Hin);
    split_fields Hin;
    (eexists; split; [apply make_api_request_issued|]).
  - (* department_list *)
    simpl in Hne. unfold payload, build_request, with_params.
    cbn [req_json req_params kw_json kw_params default opt_truthy].
    rewrite Hne. apply lookup_singleton_eq.
  - lookup_field.
  - lookup_field.
  - lookup_field.
  - lookup_field.
  - lookup_field.
  - lookup_field.
  - (* user_list *)
    unfold payload, build_request, with_params.
    cbn [req_json req_params kw_json kw_params default].
    apply lookup_insert_eq.
  - lookup_field.
  - lookup_field.
  - lookup_field.
  - lookup_field.
  - lookup_field.
  - lookup_field.
  - lookup_field.
  - lookup_field.
  - lookup_field.
  - lookup_field.
  - lookup_field.
Qed.

Lemma provided_optional_payload_witness :
  ∃ r, issued (invoke be_down repr_none (DepartmentUpdate "tok" "d1" None (Some 0))) [] = [r]
       ∧ payload r !! "order" = Some (wire_value (PInt 0)).
Proof.
  apply (provided_optional_payload be_down repr_none
           (DepartmentUpdate "tok" "d1" None (Some 0)) [] "order" (PInt 0)).
  - apply list_elem_of_singleton. reflexivity.
  - reflexivity.
Defined.

(** * Further properties of the operations *)

(** ** The requests an operation issues *)

Lemma delete_only_issued be repr_other token user_id h :
  issued (user_delete be repr_other token user_id false) h = [delete_request token user_id].
Proof. unfold issued. rewrite delete_step. cbn [snd]. by rewrite drop_app_length. Qed.

(** The requests of [user_delete], whatever the flag and the backend. *)
Lemma user_delete_issued be repr_other token user_id flag h :
  issued (user_delete be repr_other token user_id flag) h = [delete_request token user_id]
  ∨ issued (user_delete be repr_other token user_id flag) h = [offline_request token user_id]
  ∨ issued (user_delete be repr_other token user_id flag) h
    = [offline_request token user_id; delete_request token user_id].
Proof.
  destruct flag.
  - right. apply prestep_issued.
  - left. apply delete_only_issued.
Qed.

(** Every operation but [user_delete] issues the one request it builds
    from its arguments, with the call's token and no headers of its own. *)
Lemma single_request be repr_other c h :
  is_user_delete c = false →
  ∃ method url kw,
    issued (invoke be repr_other c) h = [build_request method url (call_token c) kw]
    ∧ kw_headers kw = None
    ∧ well_shaped (build_request method url (call_token c) kw).
Proof.
  intros Hc. destruct c; try discriminate Hc; simpl;
    do 3 eexists;
    (split; [first [apply make_api_request_issued | apply issue_token_issued]|]);
    (split; [reflexivity|]);
    (split; [reflexivity|]);
    first [ left; split; reflexivity
          | right; split; [reflexivity | split; [reflexivity | by eexists]] ].
Qed.

Lemma offline_request_shape token user_id :
  well_shaped (offline_request token user_id)
  ∧ req_headers (offline_request token user_id)
    = req_headers (build_request "POST" "" (Some token) no_kwargs).
Proof.
  split; [|reflexivity].
  split; [reflexivity|]. right. split; [reflexivity | split; [reflexivity | by eexists]].
Qed.

Lemma delete_request_shape token user_id :
  well_shaped (delete_request token user_id)
  ∧ req_headers (delete_request token user_id)
    = req_headers (build_request "POST" "" (Some token) no_kwargs).
Proof.
  split; [|reflexivity].
  split; [reflexivity|]. right. split; [reflexivity | split; [reflexivity | by eexists]].
Qed.

(** Every request of every operation: its shape, and its headers, which
    are those the invoker makes from the call's token alone. *)
Lemma issued_request be repr_other c h r :
  r ∈ issued (invoke be repr_other c) h →
  well_shaped r
  ∧ req_headers r = req_headers (build_request "POST" "" (call_token c) no_kwargs).
Proof.
  destruct (is_user_delete c) eqn:Hc.
  - destruct c; try discriminate Hc. simpl.
    destruct (user_delete_issued be repr_other token user_id (default true set_offline_first) h)
      as [-> | [-> | ->]]; intros Hr;
      repeat (apply elem_of_cons in Hr as [-> | Hr]);
      try (by apply elem_of_nil in Hr);
      first [apply offline_request_shape | apply delete_request_shape].
  - destruct (single_request be repr_other c h Hc) as (method & url & kw & -> & Hkw & Hshape).
    intros ->%list_elem_of_singleton. split; [exact Hshape|].
    unfold build_request. simpl. by rewrite Hkw.
Qed.

(** X1: every request of an operation called with a non-empty token,
    the two requests of [user_delete] included, carries that token as
    its Authorization header, as it is. *)
Theorem every_request_authorized (be : backend) (repr_other : pyval -> string)
    (c : tool_call) (h : list request) (t : string) (r : request) :
  call_token c = Some t → t ≠ "" →
  r ∈ issued (invoke be repr_other c) h →
  sent_headers r !! "Authorization" = Some t.
Proof.
  intros Htok Hne Hr.
  destruct (issued_request be repr_other c h r Hr) as [_ Hh].
  rewrite sent_headers_authorization, Hh, Htok. unfold build_request.
  apply opt_truthy_Some in Hne. rewrite Hne. cbn. apply lookup_insert_eq.
Qed.

Lemma every_request_authorized_witness :
  sent_headers (offline_request "tok" "u1") !! "Authorization" = Some "tok".
Proof.
  apply (every_request_authorized be_refuse_update repr_none (UserDelete "tok" "u1" None) []
           "tok" (offline_request "tok" "u1")).
  - reflexivity.
  - discriminate.
  - apply list_elem_of_singleton. reflexivity.
Defined.



(** X3: every request of every operation goes to a path under
    /api/open/v1/ and is either a GET without a JSON body or a POST with
    a JSON body and no query parameters. *)
Theorem every_request_well_shaped (be : backend) (repr_other : pyval -> string)
    (c : tool_call) (h : list request) (r : request) :
  r ∈ issued (invoke be repr_other c) h → well_shaped r.
Proof. intros Hr. by destruct (issued_request be repr_other c h r Hr). Qed.

Lemma every_request_well_shaped_witness :
  well_shaped (delete_request "tok" "u1").
Proof.
  apply (every_request_well_shaped be_down repr_none (UserDelete "tok" "u1" (Some false)) []).
  apply list_elem_of_singleton. reflexivity.
Defined.

(** X4: every request of every operation goes out with the client's
    User-Agent and with Content-Type application/json, the GETs too. *)
Theorem every_request_client_headers (be : backend) (repr_other : pyval -> string)
    (c : tool_call) (h : list request) (r : request) :
  r ∈ issued (invoke be repr_other c) h →
  sent_headers r !! "User-Agent" = Some USER_AGENT
  ∧ sent_headers r !! "Content-Type" = Some "application/json".
Proof.
  intros Hr. destruct (issued_request be repr_other c h r Hr) as [_ Hh].
  unfold sent_headers. rewrite Hh, !lookup_union. unfold build_request. cbn.
  destruct (call_token c) as [t|]; [destruct (opt_truthy (Some t))|];
    split; reflexivity.
Qed.

Lemma every_request_client_headers_witness :
  sent_headers (build_request "GET" "/api/open/v1/role/list" (Some "tok") no_kwargs)
    !! "User-Agent" = Some USER_AGENT
  ∧ sent_headers (build_request "GET" "/api/open/v1/role/list" (Some "tok") no_kwargs)
      !! "Content-Type" = Some "application/json".
Proof.
  apply (every_request_client_headers be_down repr_none (RoleList "tok") []).
  apply list_elem_of_singleton. reflexivity.
Defined.

(** X5: no operation retries or fans out: every operation but
    [user_delete] issues exactly one request, and [user_delete] issues
    one or two, exactly one when the pre-step is switched off. *)
Theorem request_count (be : backend) (repr_other : pyval -> string)
    (c : tool_call) (h : list request) :
  (is_user_delete c = false → length (issued (invoke be repr_other c) h) = 1%nat)
  ∧ (1 ≤ length (issued (invoke be repr_other c) h) ≤ 2)%nat
  ∧ (∀ t u, c = UserDelete t u (Some false) →
       length (issued (invoke be repr_other c) h) = 1%nat).
Proof.
  assert (Hone : is_user_delete c = false →
                 length (issued (invoke be repr_other c) h) = 1%nat).
  { intros Hc. destruct (single_request be repr_other c h Hc) as (? & ? & ? & -> & _).
    reflexivity. }
  split; [exact Hone|]. split.
  - destruct (is_user_delete c) eqn:Hc; [|rewrite Hone by done; lia].
    destruct c; try discriminate Hc. simpl.
    destruct (user_delete_issued be repr_other token user_id (default true set_offline_first) h)
      as [-> | [-> | ->]]; simpl; lia.
  - intros t u ->. simpl. by rewrite delete_only_issued.
Qed.

Lemma request_count_witness :
  length (issued (invoke be_down repr_none (UserGet "tok" "u1")) []) = 1%nat.
Proof.
  apply (proj1 (request_count be_down repr_none (UserGet "tok" "u1") [])).
  reflexivity.
Defined.

(** ** Results handed back to the caller *)

(** Every operation but [issue_token] and [user_delete] is the invoker
    applied to the request it builds. *)
Lemma plain_operation be repr_other c :
  takes_token c = true → is_user_delete c = false →
  ∃ method url kw,
    invoke be repr_other c = make_api_request be method url (call_token c) kw.
Proof.
  intros Ht Hd. destruct c; try discriminate Ht; try discriminate Hd;
    do 3 eexists; reflexivity.
Qed.

(** X6: every operation but [issue_token] and [user_delete] hands back
    what the backend answered: for a 2xx response with a JSON body the
    parsed body itself, whatever it is (a business error with a non-zero
    code, or a body that is no object), and it never raises. *)
Theorem plain_operation_passes_through (be : backend) (repr_other : pyval -> string)
    (c : tool_call) (h : list request) :
  takes_token c = true → is_user_delete c = false →
  ∃ r, issued (invoke be repr_other c) h = [r]
       ∧ (∀ resp v, be h r = Responded resp → 200 <= status_code resp <= 299 →
            json_body resp = inr v → fst (invoke be repr_other c h) = Returns v)
       ∧ (∃ v, fst (invoke be repr_other c h) = Returns v).
Proof.
  intros Ht Hd.
  destruct (plain_operation be repr_other c Ht Hd) as (method & url & kw & ->).
  exists (build_request method url (call_token c) kw).
  split; [apply make_api_request_issued|].
  rewrite make_api_request_result. split; [|by eexists].
  intros resp v -> Hs%is_success_2xx Hj. simpl. by rewrite Hs, Hj.
Qed.

Lemma plain_operation_passes_through_witness :
  ∃ r, issued (invoke (be_const (PList [PInt 1])) repr_none (UserGet "tok" "u1")) [] = [r]
       ∧ (∀ resp v, be_const (PList [PInt 1]) [] r = Responded resp →
            200 <= status_code resp <= 299 → json_body resp = inr v →
            fst (invoke (be_const (PList [PInt 1])) repr_none (UserGet "tok" "u1") [])
            = Returns v)
       ∧ (∃ v, fst (invoke (be_const (PList [PInt 1])) repr_none (UserGet "tok" "u1") [])
               = Returns v).
Proof.
  apply (plain_operation_passes_through (be_const (PList [PInt 1])) repr_none
           (UserGet "tok" "u1") []); reflexivity.
Defined.

Lemma truthy_dict (d : gmap string pyval) : d ≠ ∅ → truthy (PDict d) = true.
Proof.
  intros Hne. simpl. apply negb_true_iff, Nat.eqb_neq.
  intros Hsize. by apply map_size_empty_iff in Hsize.
Qed.

(** [issue_token] after the invoker has returned [v]. *)
Lemma issue_token_result be access_key_id access_key_secret h v :
  fst (make_api_request be "POST" "/api/open/v1/token" None
         (with_json {[ "access_key_id" := PStr access_key_id;
                       "access_key_secret" := PStr access_key_secret ]}) h) = Returns v →
  fst (issue_token be access_key_id access_key_secret h)
  = fst ((do failed <- (if negb (truthy v) then ret true else lift (py_contains "error" v));
          if failed : bool then
            do err <- lift (py_get v "error" (PStr "Failed to get token"));
            ret (PDict {[ "success" := PBool false; "error" := err ]})
          else
            do data <- lift (py_get v "data" (PDict ∅));
            do access_token <- lift (py_get data "access_token" PNone);
            do expires_in <- lift (py_get data "expires_in" PNone);
            ret (PDict {[ "success" := PBool true;
                          "data" := PDict {[ "access_token" := access_token;
                                             "expires_in" := expires_in ]} ]}))
           (h ++ [build_request "POST" "/api/open/v1/token" None
                    (with_json {[ "access_key_id" := PStr access_key_id;
                                  "access_key_secret" := PStr access_key_secret ]})])).
Proof.
  intros Hv. unfold issue_token. unfold bind at 1.
  rewrite make_api_request_run in Hv |- *. cbn [fst] in Hv.
  injection Hv as Hv. by rewrite Hv.
Qed.

Ltac token_request_returned H :=
  rewrite (issue_token_result _ _ _ _ _ H); unfold bind, ret, lift.

(** X7: [issue_token] reports success on every non-empty object without
    an "error" key whose "data" is an object or is missing, whatever its
    "code" is: the result is [{success: True, data: {access_token,
    expires_in}}] with the two fields read from "data", [None] for a
    field that is missing. *)
Theorem issue_token_success (be : backend) (access_key_id access_key_secret : string)
    (h : list request) (d data : gmap string pyval) :
  fst (make_api_request be "POST" "/api/open/v1/token" None
         (with_json {[ "access_key_id" := PStr access_key_id;
                       "access_key_secret" := PStr access_key_secret ]}) h)
    = Returns (PDict d) →
  d ≠ ∅ →
  d !! "error" = None →
  default (PDict ∅) (d !! "data") = PDict data →
  fst (issue_token be access_key_id access_key_secret h)
  = Returns (PDict {[ "success" := PBool true;
                      "data" := PDict {[ "access_token" := default PNone (data !! "access_token");
                                         "expires_in" := default PNone (data !! "expires_in") ]} ]}).
Proof.
  intros Hres Hne Herr Hdata. token_request_returned Hres.
  rewrite (truthy_dict d Hne). cbn [negb py_contains py_get].
  rewrite Herr, Hdata. reflexivity.
Qed.

Lemma issue_token_success_witness :
  fst (issue_token (be_const (PDict {[ "code" := PInt 401; "message" := PStr "bad key" ]}))
         "key-id" "key-secret" [])
  = Returns (PDict {[ "success" := PBool true;
                      "data" := PDict {[ "access_token" := PNone;
                                         "expires_in" := PNone ]} ]}).
Proof.
  assert (Hne : ({[ "code" := PInt 401; "message" := PStr "bad key" ]} : gmap string pyval)
                ≠ ∅).
  { intros Hd. apply (f_equal (λ m : gmap string pyval, m !! "code")) in Hd.
    discriminate Hd. }
  exact (issue_token_success
           (be_const (PDict {[ "code" := PInt 401; "message" := PStr "bad key" ]}))
           "key-id" "key-secret" []
           {[ "code" := PInt 401; "message" := PStr "bad key" ]} ∅
           eq_refl Hne eq_refl eq_refl).
Defined.

(** X8: [issue_token] reports failure, without raising, in two cases:
    an object with an "error" key gives [{success: False, error: <that
    value>}], even when it also carries a token, and the empty object
    gives [{success: False, error: "Failed to get token"}]. *)
Theorem issue_token_failure (be : backend) (access_key_id access_key_secret : string)
    (h : list request) (d : gmap string pyval) :
  fst (make_api_request be "POST" "/api/open/v1/token" None
         (with_json {[ "access_key_id" := PStr access_key_id;
                       "access_key_secret" := PStr access_key_secret ]}) h)
    = Returns (PDict d) →
  (∀ err, d !! "error" = Some err →
     fst (issue_token be access_key_id access_key_secret h)
     = Returns (PDict {[ "success" := PBool false; "error" := err ]}))
  ∧ (d = ∅ →
     fst (issue_token be access_key_id access_key_secret h)
     = Returns (PDict {[ "success" := PBool false;
                         "error" := PStr "Failed to get token" ]})).
Proof.
  intros Hres. split.
  - intros err Herr. token_request_returned Hres.
    assert (Hne : d ≠ ∅) by (intros ->; discriminate Herr).
    rewrite (truthy_dict d Hne). cbn [negb py_contains py_get].
    rewrite Herr. reflexivity.
  - intros ->. token_request_returned Hres. reflexivity.
Qed.

Lemma issue_token_failure_witness :
  fst (issue_token (be_const (PDict ∅)) "key-id" "key-secret" [])
  = Returns (PDict {[ "success" := PBool false; "error" := PStr "Failed to get token" ]}).
Proof.
  apply (proj2 (issue_token_failure (be_const (PDict ∅)) "key-id" "key-secret" [] ∅ eq_refl)).
  reflexivity.
Defined.

(** X9: [issue_token] raises when "data" is there and is no object: for
    a non-empty object without an "error" key whose "data" is [x], the
    [get] on [x] fails with an AttributeError. The failure envelope of
    the invoker is such an object (its "data" is [None]), so every
    failed HTTP call makes [issue_token] raise. *)
Theorem issue_token_raises_on_data (be : backend) (access_key_id access_key_secret : string)
    (h : list request) :
  (∀ (d : gmap string pyval) (x : pyval),
     fst (make_api_request be "POST" "/api/open/v1/token" None
            (with_json {[ "access_key_id" := PStr access_key_id;
                          "access_key_secret" := PStr access_key_secret ]}) h)
       = Returns (PDict d) →
     d !! "error" = None → d !! "data" = Some x → (∀ data, x ≠ PDict data) →
     fst (issue_token be access_key_id access_key_secret h)
     = Raises (AttributeError (type_name x) "get"))
  ∧ (∀ e : string,
       fst (make_api_request be "POST" "/api/open/v1/token" None
              (with_json {[ "access_key_id" := PStr access_key_id;
                            "access_key_secret" := PStr access_key_secret ]}) h)
         = Returns (failure_envelope e) →
       fst (issue_token be access_key_id access_key_secret h)
       = Raises (AttributeError "NoneType" "get")).
Proof.
  split.
  - intros d x Hres Herr Hdata Hx. token_request_returned Hres.
    assert (Hne : d ≠ ∅) by (intros ->; discriminate Hdata).
    rewrite (truthy_dict d Hne). cbn [negb py_contains py_get].
    rewrite Herr, Hdata. cbn [bool_decide default].
    destruct x; try reflexivity. by destruct (Hx d0).
  - intros e Hres. token_request_returned Hres. reflexivity.
Qed.

Lemma issue_token_raises_on_data_witness :
  fst (issue_token be_down "key-id" "key-secret" [])
  = Raises (AttributeError "NoneType" "get").
Proof.
  apply (proj2 (issue_token_raises_on_data be_down "key-id" "key-secret" []) "timed out").
  reflexivity.
Defined.

(** X10: [issue_token] raises on every JSON body that is not an object
    (a list, a string, a number, [null]). *)
Theorem issue_token_raises_on_non_object (be : backend)
    (access_key_id access_key_secret : string) (h : list request) (v : pyval) :
  fst (make_api_request be "POST" "/api/open/v1/token" None
         (with_json {[ "access_key_id" := PStr access_key_id;
                       "access_key_secret" := PStr access_key_secret ]}) h) = Returns v →
  (∀ d, v ≠ PDict d) →
  ∃ exc, fst (issue_token be access_key_id access_key_secret h) = Raises exc.
Proof.
  intros Hres Hv. token_request_returned Hres.
  destruct v as [|b|z|f|s|l|d]; [| | | | | |by destruct (Hv d)].
  - eexists. reflexivity.
  - destruct b; eexists; reflexivity.
  - simpl. destruct (z =? 0); eexists; reflexivity.
  - destruct f; eexists; reflexivity.
  - simpl. destruct (String.eqb s ""); simpl; [eexists; reflexivity|].
    destruct (String.index 0 "error" s); eexists; reflexivity.
  - destruct l as [|x l]; [eexists; reflexivity|]. simpl.
    destruct (_ || _); eexists; reflexivity.
Qed.

Lemma issue_token_raises_on_non_object_witness :
  ∃ exc, fst (issue_token (be_const (PList [PStr "error"])) "key-id" "key-secret" [])
         = Raises exc.
Proof.
  apply (issue_token_raises_on_non_object (be_const (PList [PStr "error"]))
           "key-id" "key-secret" [] (PList [PStr "error"])).
  - reflexivity.
  - discriminate.
Defined.

(** ** More on user deletion *)

(** The pre-step on a result that is no object: the [get] raises and
    the delete is not reached. *)
Lemma prestep_raises be repr_other token user_id h v :
  fst (user_update be token user_id None None None None None (Some 3) h) = Returns v →
  (∀ d, v ≠ PDict d) →
  user_delete be repr_other token user_id true h
  = (Raises (AttributeError (type_name v) "get"), h ++ [offline_request token user_id]).
Proof.
  intros Hv Hnd. pose proof (offline_update_history be token user_id h) as Hh.
  unfold user_delete. unfold bind at 1 2.
  destruct (user_update be token user_id None None None None None (Some 3) h)
    as [o h1] eqn:Hrun.
  simpl in Hv, Hh. subst o h1. step_monad.
  destruct v as [| | | | | |d]; try reflexivity. by destruct (Hnd d).
Qed.

Lemma annotated_code repr_other (d : gmap string pyval) :
  annotated repr_other d !! "code" = d !! "code".
Proof.
  unfold annotated. destruct (py_ne_zero _); [|reflexivity].
  by rewrite lookup_insert_ne.
Qed.

(** A result of the delete step with a code equal to 0 is the
    backend's own answer to the delete. *)
Lemma delete_step_zero be repr_other token user_id h (env : gmap string pyval) :
  fst (user_delete be repr_other token user_id false h) = Returns (PDict env) →
  py_eq_zero (default PNone (env !! "code")) = true →
  fst (make_api_request be "POST" "/api/open/v1/user/delete" (Some token)
         (with_json {[ "id" := PStr user_id ]}) h) = Returns (PDict env).
Proof.
  rewrite delete_step. cbn [fst].
  destruct (fst (make_api_request _ _ _ _ _ _)) as [[| | | | | |d]|e]; try discriminate.
  intros Henv Hzero. injection Henv as <-.
  rewrite annotated_code in Hzero. unfold annotated, py_ne_zero.
  by rewrite Hzero.
Qed.

(** X11: a result of [user_delete] whose code equals 0 means the delete
    went out and the backend answered it with exactly that result:
    neither the abort envelope nor an annotated result has such a code. *)
Theorem user_delete_zero_code (be : backend) (repr_other : pyval -> string)
    (token user_id : string) (flag : bool) (h : list request) (env : gmap string pyval) :
  fst (user_delete be repr_other token user_id flag h) = Returns (PDict env) →
  py_eq_zero (default PNone (env !! "code")) = true →
  ∃ h1, (h1 = h ∨ h1 = h ++ [offline_request token user_id])
        ∧ snd (user_delete be repr_other token user_id flag h)
          = h1 ++ [delete_request token user_id]
        ∧ fst (make_api_request be "POST" "/api/open/v1/user/delete" (Some token)
                 (with_json {[ "id" := PStr user_id ]}) h1) = Returns (PDict env).
Proof.
  intros Henv Hzero. destruct flag.
  - destruct (fst (user_update be token user_id None None None None None (Some 3) h))
      as [v|e] eqn:Hupd.
    2: { exfalso. revert Hupd. unfold user_update.
         by rewrite make_api_request_result. }
    assert (Hd : ∃ d, v = PDict d).
    { destruct v as [| | | | | |d]; [| | | | | |by eexists];
        rewrite (prestep_raises _ _ _ _ _ _ Hupd) in Henv by discriminate;
        discriminate Henv. }
    destruct Hd as [d ->].
    rewrite (prestep_run _ _ _ _ _ _ Hupd) in Henv |- *.
    destruct (py_ne_zero (default PNone (d !! "code"))) eqn:Hcode.
    + exfalso. cbn [fst] in Henv. injection Henv as <-.
      rewrite lookup_insert_eq in Hzero. unfold py_ne_zero in Hcode.
      destruct (d !! "code") as [x|]; simpl in Hzero, Hcode;
        [by rewrite Hzero in Hcode | discriminate Hzero].
    + exists (h ++ [offline_request token user_id]).
      split; [by right|]. split; [by rewrite delete_step|].
      by apply (delete_step_zero be repr_other).
  - exists h. split; [by left|]. split; [by rewrite delete_step|].
    by apply (delete_step_zero be repr_other).
Qed.

Lemma user_delete_zero_code_witness :
  ∃ h1, (h1 = [] ∨ h1 = [] ++ [offline_request "tok" "u1"])
        ∧ snd (user_delete (be_const ok_body) repr_none "tok" "u1" true [])
          = h1 ++ [delete_request "tok" "u1"]
        ∧ fst (make_api_request (be_const ok_body) "POST" "/api/open/v1/user/delete"
                 (Some "tok") (with_json {[ "id" := PStr "u1" ]}) h1)
          = Returns (PDict {[ "code" := PInt 0; "message" := PStr "ok" ]}).
Proof.
  exact (user_delete_zero_code (be_const ok_body) repr_none "tok" "u1" true []
           {[ "code" := PInt 0; "message" := PStr "ok" ]} eq_refl eq_refl).
Defined.

(** X12: [user_delete] raises exactly on a backend answer that is no
    object: with the pre-step, an update answered by [v] that is no
    object raises the AttributeError of [v.get] after the update alone
    has gone out; without it, the same holds for the delete's answer;
    and no other exception ever comes out of [user_delete]. *)
Theorem user_delete_raises (be : backend) (repr_other : pyval -> string)
    (token user_id : string) (h : list request) :
  (∀ v, fst (user_update be token user_id None None None None None (Some 3) h) = Returns v →
        (∀ d, v ≠ PDict d) →
        user_delete be repr_other token user_id true h
        = (Raises (AttributeError (type_name v) "get"),
           h ++ [offline_request token user_id]))
  ∧ (∀ v, fst (make_api_request be "POST" "/api/open/v1/user/delete" (Some token)
                 (with_json {[ "id" := PStr user_id ]}) h) = Returns v →
          (∀ d, v ≠ PDict d) →
          user_delete be repr_other token user_id false h
          = (Raises (AttributeError (type_name v) "get"),
             h ++ [delete_request token user_id]))
  ∧ (∀ flag exc, fst (user_delete be repr_other token user_id flag h) = Raises exc →
                 ∃ ty, exc = AttributeError ty "get").
Proof.
  assert (Hfalse : ∀ h' exc,
            fst (user_delete be repr_other token user_id false h') = Raises exc →
            ∃ ty, exc = AttributeError ty "get").
  { intros h' exc. rewrite delete_step, make_api_request_result. cbn [fst].
    destruct (match try_body _ with inr v => v | inl e => failure_envelope e end);
      intros Hexc; try discriminate Hexc; injection Hexc as <-; by eexists. }
  split; [|split].
  - intros v Hv Hnd. by apply prestep_raises.
  - intros v Hv Hnd. rewrite delete_step, Hv. cbn.
    destruct v as [| | | | | |d]; try reflexivity. by destruct (Hnd d).
  - intros [|] exc Hexc; [|by apply (Hfalse h)].
    destruct (fst (user_update be token user_id None None None None None (Some 3) h))
      as [v|e] eqn:Hupd.
    2: { exfalso. revert Hupd. unfold user_update.
         by rewrite make_api_request_result. }
    destruct v as [| | | | | |d].
    7: { rewrite (prestep_run _ _ _ _ _ _ Hupd) in Hexc.
         destruct (py_ne_zero _); [discriminate Hexc|].
         by apply (Hfalse (h ++ [offline_request token user_id])). }
    all: rewrite (prestep_raises _ _ _ _ _ _ Hupd) in Hexc by discriminate;
      injection Hexc as <-; by eexists.
Qed.

Lemma user_delete_raises_witness :
  user_delete (be_const (PList [])) repr_none "tok" "u1" true []
  = (Raises (AttributeError "list" "get"), [] ++ [offline_request "tok" "u1"]).
Proof.
  apply (proj1 (user_delete_raises (be_const (PList [])) repr_none "tok" "u1" [])
           (PList []) eq_refl).
  discriminate.
Defined.

(** X13: the annotation of a refused delete touches the message alone:
    when the delete is answered by the object [d], the result of
    [user_delete] is an object with every key of [d], and every key but
    "message" keeps the value it has in [d]. *)
Theorem user_delete_keeps_fields (be : backend) (repr_other : pyval -> string)
    (token user_id : string) (h : list request) (d : gmap string pyval) :
  fst (make_api_request be "POST" "/api/open/v1/user/delete" (Some token)
         (with_json {[ "id" := PStr user_id ]}) h) = Returns (PDict d) →
  ∃ env : gmap string pyval,
    fst (user_delete be repr_other token user_id false h) = Returns (PDict env)
    ∧ (∀ k, k ≠ "message" → env !! k = d !! k)
    ∧ dom d ⊆ dom env.
Proof.
  intros Hd. exists (annotated repr_other d).
  split; [by apply delete_step_result|].
  unfold annotated. destruct (py_ne_zero _).
  - split; [intros k Hk; by rewrite lookup_insert_ne | rewrite dom_insert_L; set_solver].
  - split; [done | set_solver].
Qed.

Lemma user_delete_keeps_fields_witness :
  ∃ env : gmap string pyval,
    fst (user_delete be_refuse_delete repr_none "tok" "u1" false []) = Returns (PDict env)
    ∧ (∀ k, k ≠ "message" →
            env !! k = ({[ "code" := PInt 1002; "message" := PStr "not offline" ]}
                        : gmap string pyval) !! k)
    ∧ dom ({[ "code" := PInt 1002; "message" := PStr "not offline" ]} : gmap string pyval)
      ⊆ dom env.
Proof.
  exact (user_delete_keeps_fields be_refuse_delete repr_none "tok" "u1" []
           {[ "code" := PInt 1002; "message" := PStr "not offline" ]} eq_refl).
Defined.

(** X14: [user_delete] with the pre-step is [user_set_status] to 3
    followed, when that returns an object with a code equal to 0, by
    [user_delete] without the pre-step, run on the history the status
    call leaves. *)
Theorem user_delete_composes (be : backend) (repr_other : pyval -> string)
    (token user_id : string) (h : list request) (d : gmap string pyval) :
  fst (user_set_status be token user_id 3 h) = Returns (PDict d) →
  py_eq_zero (default PNone (d !! "code")) = true →
  user_delete be repr_other token user_id true h
  = user_delete be repr_other token user_id false (snd (user_set_status be token user_id 3 h)).
Proof.
  unfold user_set_status. intros Hd Hzero.
  rewrite (prestep_run _ _ _ _ _ _ Hd), offline_update_history.
  unfold py_ne_zero. by rewrite Hzero.
Qed.

Lemma user_delete_composes_witness :
  user_delete (be_const ok_body) repr_none "tok" "u1" true []
  = user_delete (be_const ok_body) repr_none "tok" "u1" false
      (snd (user_set_status (be_const ok_body) "tok" "u1" 3 [])).
Proof.
  exact (user_delete_composes (be_const ok_body) repr_none "tok" "u1" []
           {[ "code" := PInt 0; "message" := PStr "ok" ]} eq_refl eq_refl).
Defined.

(** ** More on payloads and requests *)

Lemma dom_set_opt (k : string) (x : option pyval) (d : gmap string pyval) :
  dom (set_opt k x d) = dom d ∪ list_to_set (opt_field k x).*1.
Proof.
  destruct x as [v|]; simpl.
  - rewrite dom_insert_L. set_solver.
  - set_solver.
Qed.

Ltac payload_dom :=
  unfold payload, build_request, with_json, with_params, no_kwargs;
  cbn [req_json req_params kw_json kw_params default];
  rewrite ?dom_set_opt, ?fmap_app, ?list_to_set_app_L;
  rewrite ?dom_insert_L, ?dom_singleton_L, ?dom_empty_L;
  set_solver.

(** X15: the keys of the payload are exactly the keys of the required
    parameters, the keys of the optional parameters that are given, and,
    for [user_create], "gender" and "status": a parameter left at
    [None] is never sent, whichever others are given. ([user_delete] and
    the empty department of [department_list] are left aside.) *)
Theorem payload_keys_exact (be : backend) (repr_other : pyval -> string)
    (c : tool_call) (h : list request) :
  is_user_delete c = false → empty_department c = false →
  ∃ r, issued (invoke be repr_other c) h = [r]
       ∧ dom (payload r)
         = dom (required_fields c) ∪ defaulted_keys c
           ∪ list_to_set (provided_optional c).*1.
Proof.
  intros Hd He.
  destruct c; try discriminate Hd; simpl;
    eexists;
    (split; [first [apply make_api_request_issued | apply issue_token_issued]|]).
  all: try payload_dom.
  - (* department_list *)
    destruct department_id as [d|]; simpl in He |- *; [rewrite He|]; payload_dom.
  - (* user_list *)
    destruct recursive as [b|]; payload_dom.
  - (* user_create *)
    destruct gender, status; payload_dom.
Qed.

Lemma payload_keys_exact_witness :
  ∃ r, issued (invoke be_down repr_none
                 (UserUpdate "tok" "u1" None (Some "") None None None (Some 2))) [] = [r]
       ∧ dom (payload r)
         = dom (required_fields (UserUpdate "tok" "u1" None (Some "") None None None (Some 2)))
           ∪ defaulted_keys (UserUpdate "tok" "u1" None (Some "") None None None (Some 2))
           ∪ list_to_set
               (provided_optional
                  (UserUpdate "tok" "u1" None (Some "") None None None (Some 2))).*1.
Proof.
  exact (payload_keys_exact be_down repr_none
           (UserUpdate "tok" "u1" None (Some "") None None None (Some 2)) []
           eq_refl eq_refl).
Defined.

(** X16: [make_api_request] forwards what it is given: the method, the
    path, the query parameters and the JSON body go out unchanged, and
    so does every header the caller passes other than Authorization,
    which a token overrides. *)
Theorem make_api_request_forwards (be : backend) (method url : string)
    (token : option string) (kw : kwargs) (h : list request) :
  ∃ r, issued (make_api_request be method url token kw) h = [r]
       ∧ req_method r = method ∧ req_url r = url
       ∧ req_params r = kw_params kw ∧ req_json r = kw_json kw
       ∧ (∀ k, k ≠ "Authorization" →
               req_headers r !! k = default ∅ (kw_headers kw) !! k)
       ∧ (∀ t, token = Some t → t ≠ "" → req_headers r !! "Authorization" = Some t).
Proof.
  eexists. split; [apply make_api_request_issued|].
  repeat split.
  - intros k Hk. unfold build_request. cbn [req_headers].
    destruct token as [t|]; [|reflexivity].
    destruct (opt_truthy (Some t)); [by rewrite lookup_insert_ne | reflexivity].
  - intros t -> Ht%opt_truthy_Some. unfold build_request. cbn [req_headers].
    rewrite Ht. apply lookup_insert_eq.
Qed.

Lemma make_api_request_forwards_witness :
  ∃ r, issued (make_api_request be_down "GET" "/api/open/v1/role/list" (Some "tok")
                 {| kw_headers := Some {[ "Authorization" := "old"; "X-Trace" := "1" ]};
                    kw_params := None; kw_json := None |}) [] = [r]
       ∧ req_headers r !! "X-Trace" = Some "1"
       ∧ req_headers r !! "Authorization" = Some "tok".
Proof.
  destruct (make_api_request_forwards be_down "GET" "/api/open/v1/role/list" (Some "tok")
              {| kw_headers := Some {[ "Authorization" := "old"; "X-Trace" := "1" ]};
                 kw_params := None; kw_json := None |} [])
    as (r & Hr & _ & _ & _ & _ & Hkeep & Htok).
  exists r. split; [exact Hr|]. split.
  - rewrite Hkeep by discriminate. reflexivity.
  - apply (Htok "tok"); [reflexivity | discriminate].
Defined.

(** X17: what an operation other than [user_delete] sends depends on
    its arguments alone: not on the backend, not on the requests issued
    before, not on any earlier answer. *)
Theorem requests_depend_on_arguments_only (be be' : backend)
    (repr_other repr_other' : pyval -> string) (c : tool_call) (h h' : list request) :
  is_user_delete c = false →
  issued (invoke be repr_other c) h = issued (invoke be' repr_other' c) h'.
Proof.
  intros Hd. destruct c; try discriminate Hd; simpl;
    (etransitivity;
     [ first [apply make_api_request_issued | apply issue_token_issued]
     | symmetry; first [apply make_api_request_issued | apply issue_token_issued] ]).
Qed.

Lemma requests_depend_on_arguments_only_witness :
  issued (invoke be_down repr_none (UserList "tok" "d1" (Some true))) []
  = issued (invoke (be_const ok_body) repr_none (UserList "tok" "d1" (Some true)))
      [delete_request "tok" "u1"].
Proof.
  exact (requests_depend_on_arguments_only be_down (be_const ok_body) repr_none repr_none
           (UserList "tok" "d1" (Some true)) [] [delete_request "tok" "u1"] eq_refl).
Defined.
